(** * Jama-Translator: LiveKit translation agent

    A shallow embedding of [server/main.py] and [server/supabase_service.py]
    together with the properties of the sentence segmenter, the rolling
    translation context and the session coordinator.

    Python [str] values are sequences of Unicode code points; they are
    modelled as lists of code points, so that [len], iteration and
    membership in [arabic_endings] count code points as Python does. *)

From Stdlib Require Import NArith ZArith Lia String Ascii DecimalString.
From stdpp Require Import gmap list.

(** ** Python strings *)

Definition str := list N.

Definition of_ascii (s : string) : str :=
  map (fun a : ascii => N_of_ascii a) (list_ascii_of_string s).

(** [str.isspace] on one code point: the characters removed by [str.strip()]
    when it is called without arguments. *)
Definition is_space (c : N) : bool :=
  ((9 <=? c) && (c <=? 13) || (28 <=? c) && (c <=? 32)
   || (c =? 133) || (c =? 160) || (c =? 5760)
   || (8192 <=? c) && (c <=? 8202)
   || (c =? 8232) || (c =? 8233) || (c =? 8239) || (c =? 8287)
   || (c =? 12288))%N.

Fixpoint lstrip (s : str) : str :=
  match s with
  | [] => []
  | c :: rest => if is_space c then lstrip rest else s
  end.

Definition rstrip (s : str) : str := rev (lstrip (rev s)).

Definition strip (s : str) : str := rstrip (lstrip s).

(** [not s] for a string. *)
Definition is_empty (s : str) : bool :=
  match s with
  | [] => true
  | _ :: _ => false
  end.

(** ** Sentence segmenter ([extract_complete_sentences] in [entrypoint]) *)

Module Segmenter.

(** ['۔', '؟', '!', '.', '?'] as code points. *)
Definition arabic_endings : list N := [1748; 1567; 33; 46; 63]%N.

Definition is_ending (char : N) : bool :=
  bool_decide (char ∈ arabic_endings).

(** The [for char in text] loop, threading [sentences] and
    [current_sentence]. *)
Fixpoint scan (text : str) (sentences : list str) (current_sentence : str)
  : list str * str :=
  match text with
  | [] => (sentences, current_sentence)
  | char :: rest =>
      let current_sentence := current_sentence ++ [char] in
      if is_ending char then
        let sentence := strip current_sentence in
        let sentences :=
          if 5 <? length sentence then sentences ++ [sentence] else sentences in
        scan rest sentences []
      else scan rest sentences current_sentence
  end.

Definition extract_complete_sentences (text : str) : list str :=
  if is_empty text || (length (strip text) <? 3) then []
  else
    let '(sentences, current_sentence) := scan text [] [] in
    if 10 <? length (strip current_sentence)
    then sentences ++ [strip current_sentence]
    else sentences.

End Segmenter.

(** ** Data model *)

(** [rtc.Track] and [rtc.Room], reduced to the attributes the agent reads. *)
Record Track := { sid : str }.

Record Room := { name : str; local_participant_identity : str }.

Inductive Role := system | user | assistant.

Record ChatMessage := { role : Role; content : str }.

(** [llm.ChatContext]: the ordered message list; [add_message] appends. *)
Definition ChatContext := list ChatMessage.

Definition add_message (ctx : ChatContext) (r : Role) (c : str) : ChatContext :=
  ctx ++ [{| role := r; content := c |}].

Record ChoiceDelta := { delta_content : option str }.

Record ChatChunk := { delta : option ChoiceDelta }.

(** What the completion collaborator does with one request: [llm.chat]
    raises, or it hands back a stream that yields [chunks] and then either
    ends or fails. *)
Inductive LLMReply :=
| ChatRaises
| ChatStream (chunks : list ChatChunk) (fails : bool).

Record TranscriptionSegment := {
  seg_id : str;
  seg_text : str;
  start_time : Z;
  end_time : Z;
  language : str;
  final : bool
}.

Record Transcription := {
  participant_identity : str;
  track_sid : str;
  segments : list TranscriptionSegment
}.

(** Rows of the [rooms], [room_sessions] and [transcripts] tables. *)
Record RoomData := {
  rd_id : Z;
  rd_mosque_id : Z;
  rd_Title : str;
  rd_Livekit_room_name : str;
  rd_transcription_language : str;
  rd_translation__language : str
}.

Inductive Status := active | completed.

Record SessionRow := {
  sr_id : str;
  sr_room_id : Z;
  sr_mosque_id : Z;
  sr_status : Status;
  sr_logging_enabled : option bool;
  sr_transcript_count : Z;
  sr_ended_at : option N;
  sr_updated_at : option N
}.

Record TranscriptRow := {
  tr_room_id : Z;
  tr_session_id : str;
  tr_transcription_segment : str;
  tr_translation_segment : str;
  tr_timestamp : N
}.

(** The dict kept in [RoomSessionManager.active_session] and cached by
    [set_session_info]. *)
Record SessionInfo := { si_id : str; si_room_id : Z; si_mosque_id : Z }.

Inductive WsData :=
| TranslationData (arabic translation : str)
| ParticipantData (count : Z).

Record WsMessage := {
  msg_type : str;
  msg_room_id : Z;
  msg_mosque_id : Z;
  msg_data : WsData;
  msg_timestamp : N
}.

(** ** The collaborators: datastore, completion model, room, webhook *)

Inductive SessionPatch :=
| Complete (ended_at updated_at : N)
| SetTranscriptCount (new_count : Z) (updated_at : N).

Inductive DbRequest :=
| SelectRoomByName (livekit_room_name : str)
| SelectRoomLanguages (room_id : Z)
| SelectActiveSession (room_id : Z)
| InsertSession (room_id mosque_id : Z)
| UpdateSession (session_id : str) (patch : SessionPatch)
| InsertTranscript (row : TranscriptRow)
| SelectTranscriptCount (session_id : str).

(** One entry per call issued to a collaborator, oldest first. *)
Inductive Event :=
| DbCall (req : DbRequest)
| LlmChat (chat_ctx : ChatContext)
| PublishTranscription (t : Transcription)
| HttpPost (url : str) (message : WsMessage).

Record Datastore := {
  rooms : list RoomData;
  room_sessions : list SessionRow;
  transcripts : list TranscriptRow;
  next_session_id : nat
}.

(** What the outside does next: for each collaborator, the outcomes of its
    coming calls in order. An exhausted list means the datastore and the room
    answer, the webhook answers 200, and the completion model is down. *)
Record Script := {
  db_faults : list bool;
  llm_replies : list LLMReply;
  publish_faults : list bool;
  http_replies : list (option Z);
  next_uuid : nat;
  clock : N
}.

(** The module-level [supabase_service] singleton. *)
Record SupabaseService := {
  websocket_logger_url : option str;
  active_sessions : gmap str SessionInfo
}.

Record World := {
  db : Datastore;
  script : Script;
  supabase_service : SupabaseService;
  captions : list Transcription;
  trace : list Event
}.

Definition set_db (d : Datastore) (w : World) : World :=
  {| db := d; script := script w; supabase_service := supabase_service w;
     captions := captions w; trace := trace w |}.

Definition set_script (s : Script) (w : World) : World :=
  {| db := db w; script := s; supabase_service := supabase_service w;
     captions := captions w; trace := trace w |}.

Definition set_supabase_service (s : SupabaseService) (w : World) : World :=
  {| db := db w; script := script w; supabase_service := s;
     captions := captions w; trace := trace w |}.

Definition set_captions (c : list Transcription) (w : World) : World :=
  {| db := db w; script := script w; supabase_service := supabase_service w;
     captions := c; trace := trace w |}.

Definition record_event (e : Event) (w : World) : World :=
  {| db := db w; script := script w; supabase_service := supabase_service w;
     captions := captions w; trace := trace w ++ [e] |}.

(** ** Python control flow: mutable [self], shared world, exceptions *)

Inductive Exn :=
| DatastoreError | CompletionError | PublishError | HttpError | AttributeError.

Inductive Result (A : Type) :=
| Ok (a : A)
| Raise (e : Exn).

Arguments Ok {A} a.
Arguments Raise {A} e.

(** A method body: it reads and writes its object [self : S] and the world,
    and either returns or raises. What it wrote before raising stays
    written, as in Python. *)
Definition M (S A : Type) : Type := S -> World -> Result A * S * World.

Definition ret {S A} (a : A) : M S A := fun self w => (Ok a, self, w).

Definition bind {S A B} (m : M S A) (k : A -> M S B) : M S B :=
  fun self w =>
    match m self w with
    | (Ok a, self', w') => k a self' w'
    | (Raise e, self', w') => (Raise e, self', w')
    end.

Definition raise {S A} (e : Exn) : M S A := fun self w => (Raise e, self, w).

(** [try: body / except Exception as e: handler]. *)
Definition try_except {S A} (body : M S A) (handler : Exn -> M S A) : M S A :=
  fun self w =>
    match body self w with
    | (Ok a, self', w') => (Ok a, self', w')
    | (Raise e, self', w') => handler e self' w'
    end.

Definition get_self {S} : M S S := fun self w => (Ok self, self, w).

Definition modify_self {S} (f : S -> S) : M S unit :=
  fun self w => (Ok tt, f self, w).

Definition get_world {S} : M S World := fun self w => (Ok w, self, w).

Definition modify_world {S} (f : World -> World) : M S unit :=
  fun self w => (Ok tt, self, f w).

Declare Scope py_scope.
Delimit Scope py_scope with py.
Notation "'let*' x ':=' m 'in' k" := (bind m (fun x => k))
  (at level 10, x name, m at level 100, k at level 200) : py_scope.
Notation "'run' m 'in' k" := (bind m (fun _ => k))
  (at level 10, m at level 100, k at level 200) : py_scope.
Open Scope py_scope.

(** Python truthiness of an optional string: [None] and [""] are falsy. *)
Definition truthy_str (s : option str) : option str :=
  match s with
  | Some (c :: rest) => Some (c :: rest)
  | _ => None
  end.

Definition head_or {A} (d : A) (l : list A) : A :=
  match l with
  | [] => d
  | x :: _ => x
  end.

(** *** Primitive calls to the collaborators *)

Definition pop_db_fault (s : Script) : Script :=
  {| db_faults := tail (db_faults s); llm_replies := llm_replies s;
     publish_faults := publish_faults s; http_replies := http_replies s;
     next_uuid := next_uuid s; clock := clock s |}.

Definition pop_llm_reply (s : Script) : Script :=
  {| db_faults := db_faults s; llm_replies := tail (llm_replies s);
     publish_faults := publish_faults s; http_replies := http_replies s;
     next_uuid := next_uuid s; clock := clock s |}.

Definition pop_publish_fault (s : Script) : Script :=
  {| db_faults := db_faults s; llm_replies := llm_replies s;
     publish_faults := tail (publish_faults s); http_replies := http_replies s;
     next_uuid := next_uuid s; clock := clock s |}.

Definition pop_http_reply (s : Script) : Script :=
  {| db_faults := db_faults s; llm_replies := llm_replies s;
     publish_faults := publish_faults s; http_replies := tail (http_replies s);
     next_uuid := next_uuid s; clock := clock s |}.

Definition bump_uuid (s : Script) : Script :=
  {| db_faults := db_faults s; llm_replies := llm_replies s;
     publish_faults := publish_faults s; http_replies := http_replies s;
     next_uuid := Datatypes.S (next_uuid s); clock := clock s |}.

(** Every datastore request is recorded, then either raises or is served. *)
Definition db_request {S} (req : DbRequest) : M S unit :=
  fun self w =>
    let w' := record_event (DbCall req) (set_script (pop_db_fault (script w)) w) in
    if head_or false (db_faults (script w)) then (Raise DatastoreError, self, w')
    else (Ok tt, self, w').

(** [datetime.utcnow()]. *)
Definition utcnow {S} : M S N :=
  let* w := get_world in ret (clock (script w)).

Definition decimal (n : nat) : str :=
  of_ascii (NilEmpty.string_of_uint (Nat.to_uint n)).

(** [utils.misc.shortuuid(prefix)]. *)
Definition shortuuid {S} (prefix : str) : M S str :=
  fun self w =>
    (Ok (prefix ++ decimal (next_uuid (script w))), self,
     set_script (bump_uuid (script w)) w).

(** [self.llm.chat(chat_ctx=...)]. *)
Definition llm_chat {S} (chat_ctx : ChatContext)
  : M S (list ChatChunk * bool) :=
  fun self w =>
    let w' := record_event (LlmChat chat_ctx)
                (set_script (pop_llm_reply (script w)) w) in
    match head_or ChatRaises (llm_replies (script w)) with
    | ChatRaises => (Raise CompletionError, self, w')
    | ChatStream chunks fails => (Ok (chunks, fails), self, w')
    end.

(** [room.local_participant.publish_transcription(transcription)]. *)
Definition publish_transcription {S} (t : Transcription) : M S unit :=
  fun self w =>
    let w' := record_event (PublishTranscription t)
                (set_script (pop_publish_fault (script w)) w) in
    if head_or false (publish_faults (script w)) then (Raise PublishError, self, w')
    else (Ok tt, self, set_captions (captions w' ++ [t]) w').

(** [httpx.AsyncClient().post(url, json=message, timeout=5.0)]: the status
    code, or an exception on timeout and transport errors. *)
Definition http_post {S} (url : str) (message : WsMessage) : M S Z :=
  fun self w =>
    let w' := record_event (HttpPost url message)
                (set_script (pop_http_reply (script w)) w) in
    match head_or (Some 200%Z) (http_replies (script w)) with
    | Some status_code => (Ok status_code, self, w')
    | None => (Raise HttpError, self, w')
    end.

(** *** Tables *)

Definition set_room_sessions (l : list SessionRow) (d : Datastore) : Datastore :=
  {| rooms := rooms d; room_sessions := l; transcripts := transcripts d;
     next_session_id := next_session_id d |}.

Definition is_active (s : Status) : bool :=
  match s with active => true | completed => false end.

Definition str_eqb (a b : str) : bool := bool_decide (a = b).

Definition apply_patch (p : SessionPatch) (r : SessionRow) : SessionRow :=
  match p with
  | Complete ended updated =>
      {| sr_id := sr_id r; sr_room_id := sr_room_id r;
         sr_mosque_id := sr_mosque_id r; sr_status := completed;
         sr_logging_enabled := sr_logging_enabled r;
         sr_transcript_count := sr_transcript_count r;
         sr_ended_at := Some ended; sr_updated_at := Some updated |}
  | SetTranscriptCount n updated =>
      {| sr_id := sr_id r; sr_room_id := sr_room_id r;
         sr_mosque_id := sr_mosque_id r; sr_status := sr_status r;
         sr_logging_enabled := sr_logging_enabled r;
         sr_transcript_count := n;
         sr_ended_at := sr_ended_at r; sr_updated_at := Some updated |}
  end.

(** [table("rooms").select("*").eq("Livekit_room_name", n).execute().data] *)
Definition select_rooms_by_name {S} (n : str) : M S (list RoomData) :=
  run db_request (SelectRoomByName n) in
  let* w := get_world in
  ret (List.filter (fun r => str_eqb (rd_Livekit_room_name r) n) (rooms (db w))).

(** [table("rooms").select("transcription_language, translation__language")
    .eq("id", room_id).execute().data] *)
Definition select_room_languages {S} (room_id : Z) : M S (list RoomData) :=
  run db_request (SelectRoomLanguages room_id) in
  let* w := get_world in
  ret (List.filter (fun r => rd_id r =? room_id)%Z (rooms (db w))).

(** [table("room_sessions").select("*").eq("room_id", room_id)
    .eq("status", "active").execute().data] *)
Definition select_active_sessions {S} (room_id : Z) : M S (list SessionRow) :=
  run db_request (SelectActiveSession room_id) in
  let* w := get_world in
  ret (List.filter
         (fun r => (sr_room_id r =? room_id)%Z && is_active (sr_status r))
         (room_sessions (db w))).

(** The row stored for [session_data]; the datastore assigns the id. *)
Definition new_session_row (n : nat) (room_id mosque_id : Z) : SessionRow :=
  {| sr_id := of_ascii "session-" ++ decimal n;
     sr_room_id := room_id; sr_mosque_id := mosque_id;
     sr_status := active; sr_logging_enabled := Some true;
     sr_transcript_count := 0;
     sr_ended_at := None; sr_updated_at := None |}.

(** [table("room_sessions").insert(session_data).execute().data]: the stored
    row is handed back. *)
Definition insert_session {S} (room_id mosque_id : Z) : M S (list SessionRow) :=
  run db_request (InsertSession room_id mosque_id) in
  let* w := get_world in
  let row := new_session_row (next_session_id (db w)) room_id mosque_id in
  run modify_world (set_db
        {| rooms := rooms (db w);
           room_sessions := room_sessions (db w) ++ [row];
           transcripts := transcripts (db w);
           next_session_id := Datatypes.S (next_session_id (db w)) |}) in
  ret [row].

(** [table("room_sessions").update(patch).eq("id", session_id).execute().data] *)
Definition update_sessions {S} (session_id : str) (p : SessionPatch)
  : M S (list SessionRow) :=
  run db_request (UpdateSession session_id p) in
  let* w := get_world in
  let rows := map (fun r => if str_eqb (sr_id r) session_id
                            then apply_patch p r else r)
                  (room_sessions (db w)) in
  run modify_world (set_db (set_room_sessions rows (db w))) in
  ret (List.filter (fun r => str_eqb (sr_id r) session_id) rows).

(** [table("transcripts").insert(transcript_data).execute().data] *)
Definition insert_transcript {S} (row : TranscriptRow) : M S (list TranscriptRow) :=
  run db_request (InsertTranscript row) in
  let* w := get_world in
  run modify_world (set_db
        {| rooms := rooms (db w);
           room_sessions := room_sessions (db w);
           transcripts := transcripts (db w) ++ [row];
           next_session_id := next_session_id (db w) |}) in
  ret [row].

(** [table("room_sessions").select("transcript_count").eq("id", session_id)
    .execute().data] *)
Definition select_transcript_count {S} (session_id : str) : M S (list SessionRow) :=
  run db_request (SelectTranscriptCount session_id) in
  let* w := get_world in
  ret (List.filter (fun r => str_eqb (sr_id r) session_id) (room_sessions (db w))).

(** ** [supabase_service.py]: class [SupabaseService]

    The methods act on the module-level singleton, which lives in the world;
    they are usable from any object's methods. Logger calls are not
    modelled. *)

Module SupabaseService.

Definition get_room_by_livekit_name {S} (livekit_room_name : str)
  : M S (option RoomData) :=
  try_except
    (let* data := select_rooms_by_name livekit_room_name in
     match data with
     | row :: _ => ret (Some row)
     | [] => ret None
     end)
    (fun e => ret None).

Definition get_active_session {S} (room_id : Z) : M S (option SessionRow) :=
  try_except
    (let* data := select_active_sessions room_id in
     match data with
     | row :: _ => ret (Some row)
     | [] => ret None
     end)
    (fun e => ret None).

Definition start_session {S} (room_id mosque_id : Z) : M S (option str) :=
  try_except
    (let* active_session := get_active_session room_id in
     match active_session with
     | Some row => ret (Some (sr_id row))
     | None =>
         let* data := insert_session room_id mosque_id in
         match data with
         | row :: _ => ret (Some (sr_id row))
         | [] => ret None
         end
     end)
    (fun e => ret None).

Definition stop_session {S} (room_id : Z) : M S bool :=
  try_except
    (let* active_session := get_active_session room_id in
     match active_session with
     | None => ret false
     | Some row =>
         let* ended_at := utcnow in
         let* updated_at := utcnow in
         let* data := update_sessions (sr_id row) (Complete ended_at updated_at) in
         match data with
         | _ :: _ => ret true
         | [] => ret false
         end
     end)
    (fun e => ret false).

Definition update_session_transcript_count {S} (session_id : str) : M S unit :=
  try_except
    (let* data := select_transcript_count session_id in
     match data with
     | row :: _ =>
         let current_count := sr_transcript_count row in
         let new_count := (current_count + 1)%Z in
         let* updated_at := utcnow in
         let* _ := update_sessions session_id
                     (SetTranscriptCount new_count updated_at) in
         ret tt
     | [] => ret tt
     end)
    (fun e => ret tt).

Definition save_transcript {S} (room_id : Z) (session_id arabic_text translation : str)
  : M S bool :=
  try_except
    (let* timestamp := utcnow in
     let transcript_data :=
       {| tr_room_id := room_id; tr_session_id := session_id;
          tr_transcription_segment := arabic_text;
          tr_translation_segment := translation;
          tr_timestamp := timestamp |} in
     let* data := insert_transcript transcript_data in
     match data with
     | _ :: _ =>
         run update_session_transcript_count session_id in
         ret true
     | [] => ret false
     end)
    (fun e => ret false).

Definition send_to_websocket_logger {S} (room_id mosque_id : Z)
    (arabic_text translation : str) : M S unit :=
  try_except
    (let* timestamp := utcnow in
     let message :=
       {| msg_type := of_ascii "translation";
          msg_room_id := room_id; msg_mosque_id := mosque_id;
          msg_data := TranslationData arabic_text translation;
          msg_timestamp := timestamp |} in
     let* w := get_world in
     match truthy_str (websocket_logger_url (supabase_service w)) with
     | Some url =>
         let* status_code :=
           http_post (url ++ of_ascii "/functions/v1/websocket-logger") message in
         ret tt
     | None => ret tt
     end)
    (fun e => ret tt).

Definition get_room_languages {S} (room_id : Z) : M S (str * str) :=
  try_except
    (let* data := select_room_languages room_id in
     match data with
     | room_data :: _ =>
         ret (rd_transcription_language room_data,
              rd_translation__language room_data)
     | [] => ret (of_ascii "ar", of_ascii "en")
     end)
    (fun e => ret (of_ascii "ar", of_ascii "en")).

(** Returns [active_session.get("logging_enabled", False)]; a missing or null
    flag is falsy at the call site and is returned as [false] here. *)
Definition is_session_logging_enabled {S} (room_id : Z) : M S bool :=
  try_except
    (let* active_session := get_active_session room_id in
     match active_session with
     | Some row => ret (default false (sr_logging_enabled row))
     | None => ret false
     end)
    (fun e => ret false).

Definition update_participant_count {S} (room_id mosque_id count : Z) : M S unit :=
  try_except
    (let* timestamp := utcnow in
     let message :=
       {| msg_type := of_ascii "participant_update";
          msg_room_id := room_id; msg_mosque_id := mosque_id;
          msg_data := ParticipantData count;
          msg_timestamp := timestamp |} in
     let* w := get_world in
     match truthy_str (websocket_logger_url (supabase_service w)) with
     | Some url =>
         let* _ :=
           http_post (url ++ of_ascii "/functions/v1/websocket-logger") message in
         ret tt
     | None => ret tt
     end)
    (fun e => ret tt).

Definition get_session_info {S} (livekit_room_name : str) : M S (option SessionInfo) :=
  let* w := get_world in
  ret (active_sessions (supabase_service w) !! livekit_room_name).

Definition set_session_info {S} (livekit_room_name : str) (session_info : SessionInfo)
  : M S unit :=
  modify_world (fun w =>
    set_supabase_service
      {| websocket_logger_url := websocket_logger_url (supabase_service w);
         active_sessions :=
           <[livekit_room_name := session_info]> (active_sessions (supabase_service w)) |}
      w).

Definition remove_session_info {S} (livekit_room_name : str) : M S unit :=
  modify_world (fun w =>
    if bool_decide (is_Some (active_sessions (supabase_service w) !! livekit_room_name))
    then set_supabase_service
           {| websocket_logger_url := websocket_logger_url (supabase_service w);
              active_sessions :=
                delete livekit_room_name (active_sessions (supabase_service w)) |}
           w
    else w).

End SupabaseService.

(** ** [main.py]: class [TranslationService] *)

Record TranslationService := {
  ts_room : Room;
  target_language : str;
  source_language : str;
  use_context : bool;
  context : ChatContext;
  message_count : nat;
  max_context_messages : nat;
  system_prompt : str
}.

Module TranslationService.

Definition set_context (c : ChatContext) (self : TranslationService) :=
  {| ts_room := ts_room self; target_language := target_language self;
     source_language := source_language self; use_context := use_context self;
     context := c; message_count := message_count self;
     max_context_messages := max_context_messages self;
     system_prompt := system_prompt self |}.

Definition set_message_count (n : nat) (self : TranslationService) :=
  {| ts_room := ts_room self; target_language := target_language self;
     source_language := source_language self; use_context := use_context self;
     context := context self; message_count := n;
     max_context_messages := max_context_messages self;
     system_prompt := system_prompt self |}.

Definition make_system_prompt (source_language target_language : str) : str :=
  of_ascii "You are a professional simultaneous interpreter for Islamic religious content. "
  ++ of_ascii "Translate the provided " ++ source_language
  ++ of_ascii " text to " ++ target_language ++ of_ascii ". "
  ++ of_ascii "Rules: 1) Translate ONLY the most recent sentence. "
  ++ of_ascii "2) Be accurate and respectful with religious terminology. "
  ++ of_ascii "3) Use natural, spoken language appropriate for live translation. "
  ++ of_ascii "4) Return ONLY the translation, no explanations. "
  ++ of_ascii "5) Maintain the tone and meaning of the original.".

Definition __init__ (room : Room) (target_language source_language : str)
  : TranslationService :=
  let system_prompt := make_system_prompt source_language target_language in
  {| ts_room := room; target_language := target_language;
     source_language := source_language; use_context := true;
     context := add_message [] system system_prompt;
     message_count := 0; max_context_messages := 9;
     system_prompt := system_prompt |}.

Definition _publish_transcription (text : str) (track : option Track)
  : M TranslationService unit :=
  try_except
    (let* self := get_self in
     let* id := shortuuid (of_ascii "SG_") in
     let segment :=
       {| seg_id := id; seg_text := text; start_time := 0; end_time := 0;
          language := target_language self; final := true |} in
     let transcription :=
       {| participant_identity := local_participant_identity (ts_room self);
          track_sid := match track with Some t => sid t | None => [] end;
          segments := [segment] |} in
     publish_transcription transcription)
    (fun e => ret tt).

(** [chunk.delta.content] when [chunk.delta and chunk.delta.content], else
    nothing is added. *)
Definition chunk_content (chunk : ChatChunk) : str :=
  match delta chunk with
  | Some d => default [] (delta_content d)
  | None => []
  end.

(** [async for chunk in stream: ...]: the chunks are concatenated; a stream
    that fails raises out of the loop. *)
Definition collect {S} (stream : list ChatChunk * bool) : M S str :=
  let translated_text :=
    fold_left (fun acc chunk => acc ++ chunk_content chunk) (fst stream) [] in
  if snd stream then raise CompletionError else ret translated_text.

Definition translate_text (text : str) (track : option Track)
  : M TranslationService str :=
  try_except
    (let* self := get_self in
     let* stream :=
       if use_context self then
         run modify_self (fun self => set_context (add_message (context self) user text) self) in
         run modify_self (fun self => set_message_count (message_count self + 1) self) in
         let* self := get_self in
         run (if max_context_messages self <? message_count self then
                run modify_self (set_context []) in
                run modify_self (fun self =>
                      set_context (add_message (context self) system (system_prompt self)) self) in
                modify_self (set_message_count 0)
              else ret tt) in
         let* self := get_self in
         llm_chat (context self)
       else
         let fresh_context := add_message [] system (system_prompt self) in
         let fresh_context := add_message fresh_context user text in
         llm_chat fresh_context in
     let* translated_text := collect stream in
     let translated_text := strip translated_text in
     run _publish_transcription translated_text track in
     ret translated_text)
    (fun e => ret text).

End TranslationService.

(** ** [main.py]: class [RoomSessionManager] *)

Record RoomSessionManager := {
  room : Room;
  room_data : option RoomData;
  active_session : option SessionInfo;
  translation_service : option TranslationService;
  participant_count : Z
}.

Module RoomSessionManager.

Definition __init__ (room : Room) : RoomSessionManager :=
  {| room := room; room_data := None; active_session := None;
     translation_service := None; participant_count := 0 |}.

Definition set_room_data (v : option RoomData) (self : RoomSessionManager) :=
  {| room := room self; room_data := v; active_session := active_session self;
     translation_service := translation_service self;
     participant_count := participant_count self |}.

Definition set_active_session (v : option SessionInfo) (self : RoomSessionManager) :=
  {| room := room self; room_data := room_data self; active_session := v;
     translation_service := translation_service self;
     participant_count := participant_count self |}.

Definition set_translation_service (v : option TranslationService)
    (self : RoomSessionManager) :=
  {| room := room self; room_data := room_data self;
     active_session := active_session self; translation_service := v;
     participant_count := participant_count self |}.

Definition set_participant_count (v : Z) (self : RoomSessionManager) :=
  {| room := room self; room_data := room_data self;
     active_session := active_session self;
     translation_service := translation_service self; participant_count := v |}.

(** A method call on [self.translation_service]: the callee mutates that
    object in place; calling through [None] raises. *)
Definition on_translation_service {A} (m : M TranslationService A)
  : M RoomSessionManager A :=
  fun self w =>
    match translation_service self with
    | None => (Raise AttributeError, self, w)
    | Some ts =>
        let '(r, ts', w') := m ts w in
        (r, set_translation_service (Some ts') self, w')
    end.

Definition start_session : M RoomSessionManager unit :=
  try_except
    (let* self := get_self in
     match room_data self with
     | None => ret tt
     | Some rd =>
         let* session_id :=
           SupabaseService.start_session (rd_id rd) (rd_mosque_id rd) in
         match truthy_str session_id with
         | Some session_id =>
             let info := {| si_id := session_id; si_room_id := rd_id rd;
                            si_mosque_id := rd_mosque_id rd |} in
             run modify_self (set_active_session (Some info)) in
             SupabaseService.set_session_info (name (room self)) info
         | None => ret tt
         end
     end)
    (fun e => ret tt).

Definition initialize : M RoomSessionManager bool :=
  try_except
    (let* self := get_self in
     let* rd := SupabaseService.get_room_by_livekit_name (name (room self)) in
     run modify_self (set_room_data rd) in
     match rd with
     | None => ret false
     | Some rd =>
         let* langs := SupabaseService.get_room_languages (rd_id rd) in
         let '(source_lang, target_lang) := langs in
         run modify_self (set_translation_service
               (Some (TranslationService.__init__ (room self) target_lang source_lang))) in
         run start_session in
         ret true
     end)
    (fun e => ret false).

Definition stop_session : M RoomSessionManager unit :=
  try_except
    (let* self := get_self in
     match room_data self, active_session self with
     | Some rd, Some _ =>
         let* _ := SupabaseService.stop_session (rd_id rd) in
         SupabaseService.remove_session_info (name (room self))
     | _, _ => ret tt
     end)
    (fun e => ret tt).

Definition handle_transcription (text : str) (track : option Track)
  : M RoomSessionManager unit :=
  try_except
    (let* self := get_self in
     match translation_service self, active_session self, room_data self with
     | Some _, Some session, Some rd =>
         let* enabled := SupabaseService.is_session_logging_enabled (rd_id rd) in
         if negb enabled then ret tt
         else
           let* translated_text :=
             on_translation_service (TranslationService.translate_text text track) in
           let* _ := SupabaseService.save_transcript
                       (rd_id rd) (si_id session) text translated_text in
           SupabaseService.send_to_websocket_logger
             (rd_id rd) (rd_mosque_id rd) text translated_text
     | _, _, _ => ret tt
     end)
    (fun e => ret tt).

Definition update_participant_count (count : Z) : M RoomSessionManager unit :=
  try_except
    (let* self := get_self in
     match room_data self with
     | Some rd =>
         run modify_self (set_participant_count count) in
         SupabaseService.update_participant_count (rd_id rd) (rd_mosque_id rd) count
     | None => ret tt
     end)
    (fun e => ret tt).

End RoomSessionManager.

(** ** Vocabulary of the statements *)

Definition system_message (self : TranslationService) : ChatMessage :=
  {| role := system; content := system_prompt self |}.

(** What one [translate_text] call does to the rolling context and its
    counter (lines 97-106 of [main.py]), as a function of [self] alone. *)
Definition advance (text : str) (self : TranslationService) : TranslationService :=
  if use_context self then
    if max_context_messages self <? message_count self + 1
    then TranslationService.set_message_count 0
           (TranslationService.set_context [system_message self] self)
    else TranslationService.set_message_count (message_count self + 1)
           (TranslationService.set_context
              (context self ++ [{| role := user; content := text |}]) self)
  else self.

(** Successive [translate_text] calls on one service object. *)
Fixpoint translate_all (texts : list str) (track : option Track)
    (self : TranslationService) (w : World) : TranslationService * World :=
  match texts with
  | [] => (self, w)
  | text :: rest =>
      let '(_, self', w') := TranslationService.translate_text text track self w in
      translate_all rest track self' w'
  end.

(** The calls issued between two worlds of one run. *)
Definition events_since (w w' : World) : list Event :=
  drop (length (trace w)) (trace w').

Definition published (evs : list Event) : list Transcription :=
  omap (fun e => match e with PublishTranscription t => Some t | _ => None end) evs.

Definition chat_requests (evs : list Event) : list ChatContext :=
  omap (fun e => match e with LlmChat c => Some c | _ => None end) evs.

Definition db_requests (evs : list Event) : list DbRequest :=
  omap (fun e => match e with DbCall r => Some r | _ => None end) evs.

Definition notifications (evs : list Event) : list WsMessage :=
  omap (fun e => match e with HttpPost _ m => Some m | _ => None end) evs.

(** Transcript insert and transcript-count increment. *)
Definition is_persistence (r : DbRequest) : bool :=
  match r with
  | InsertTranscript _ | SelectTranscriptCount _
  | UpdateSession _ (SetTranscriptCount _ _) => true
  | _ => false
  end.

(** The caption [_publish_transcription] builds for [text]. *)
Definition caption_of (self : TranslationService) (track : option Track)
    (id text : str) : Transcription :=
  {| participant_identity := local_participant_identity (ts_room self);
     track_sid := match track with Some t => sid t | None => [] end;
     segments := [{| seg_id := id; seg_text := text; start_time := 0;
                     end_time := 0; language := target_language self;
                     final := true |}] |}.

(** The text gathered from a stream's chunks, before trimming. *)
Definition joined (chunks : list ChatChunk) : str :=
  fold_left (fun acc chunk => acc ++ TranslationService.chunk_content chunk)
    chunks [].

(** The completion collaborator fails on the next request: [llm.chat]
    raises or its stream breaks. *)
Definition completion_fails (w : World) : bool :=
  match head_or ChatRaises (llm_replies (script w)) with
  | ChatRaises => true
  | ChatStream _ fails => fails
  end.

(** The rolling-context invariant: the context is the system message
    followed by [message_count] user messages, at most 9 of them. *)
Definition context_invariant (sys : ChatMessage) (self : TranslationService) : Prop :=
  use_context self = true
  /\ max_context_messages self = 9
  /\ system_message self = sys
  /\ exists users,
       context self = sys :: users
       /\ Forall (fun m => role m = user) users
       /\ length users = message_count self
       /\ length users <= 9.

(** The datastore raises on the next request. *)
Definition db_fails (w : World) : bool := head_or false (db_faults (script w)).

(** The datastore answers every request of the run. *)
Definition reliable (w : World) : bool := forallb negb (db_faults (script w)).

(** The first active session row the datastore holds for a room: what
    [get_active_session] reads as [result.data[0]]. *)
Definition active_session_row (w : World) (room_id : Z) : option SessionRow :=
  head (List.filter
          (fun r => (sr_room_id r =? room_id)%Z && is_active (sr_status r))
          (room_sessions (db w))).

(** The world once a datastore request has been issued, before its effect. *)
Definition after_db_request (req : DbRequest) (w : World) : World :=
  record_event (DbCall req) (set_script (pop_db_fault (script w)) w).

(** The outcome of [handle_transcription] when it stops at the logging gate:
    it returns normally, leaves the coordinator as it was, and the only call
    it issued is the active-session query. *)
Definition stops_at_gate (self : RoomSessionManager) (w : World)
    (room_id : Z) (out : Result unit * RoomSessionManager * World) : Prop :=
  let '(r, self', w') := out in
  r = Ok tt
  /\ self' = self
  /\ events_since w w' = [DbCall (SelectActiveSession room_id)]
  /\ chat_requests (events_since w w') = []
  /\ published (events_since w w') = []
  /\ List.filter is_persistence (db_requests (events_since w w')) = []
  /\ notifications (events_since w w') = []
  /\ captions w' = captions w
  /\ db w' = db w.

(** *** Sample inputs *)

Definition masjid_room : Room :=
  {| name := of_ascii "masjid-1"; local_participant_identity := of_ascii "agent" |}.

Definition masjid_service : TranslationService :=
  TranslationService.__init__ masjid_room (of_ascii "en") (of_ascii "ar").

Definition sample_track : option Track := Some {| sid := of_ascii "TR_1" |}.

Definition sample_script (replies : list LLMReply) : Script :=
  {| db_faults := []; llm_replies := replies; publish_faults := [];
     http_replies := []; next_uuid := 0; clock := 1700000000 |}.

Definition sample_room_data : RoomData :=
  {| rd_id := 7; rd_mosque_id := 3; rd_Title := of_ascii "Friday sermon";
     rd_Livekit_room_name := of_ascii "masjid-1";
     rd_transcription_language := of_ascii "ar";
     rd_translation__language := of_ascii "en" |}.

Definition sample_world (sessions : list SessionRow) (replies : list LLMReply) : World :=
  {| db := {| rooms := [sample_room_data]; room_sessions := sessions;
              transcripts := []; next_session_id := 1 |};
     script := sample_script replies;
     supabase_service :=
       {| websocket_logger_url := Some (of_ascii "https://logger.example");
          active_sessions := ∅ |};
     captions := []; trace := [] |}.

(** A coordinator as [entrypoint] has it once [initialize] has run. *)
Definition started : Result bool * RoomSessionManager * World :=
  RoomSessionManager.initialize (RoomSessionManager.__init__ masjid_room)
    (sample_world [] []).

Definition sample_manager : RoomSessionManager := snd (fst started).

Definition sample_session : SessionInfo :=
  {| si_id := of_ascii "session-1"; si_room_id := 7; si_mosque_id := 3 |}.

Definition sample_row (st : Status) (logging : option bool) : SessionRow :=
  {| sr_id := of_ascii "session-1"; sr_room_id := 7; sr_mosque_id := 3;
     sr_status := st; sr_logging_enabled := logging; sr_transcript_count := 0;
     sr_ended_at := None; sr_updated_at := None |}.

(** The world after [initialize], with the session rows, the datastore faults
    and the completion replies of the scenario at hand. *)
Definition scenario (sessions : list SessionRow) (faults : list bool)
    (replies : list LLMReply) : World :=
  {| db := set_room_sessions sessions (db (snd started));
     script := {| db_faults := faults; llm_replies := replies;
                  publish_faults := []; http_replies := [];
                  next_uuid := 0; clock := 1700000100 |};
     supabase_service := supabase_service (snd started);
     captions := []; trace := trace (snd started) |}.

Definition text_chunk (s : string) : ChatChunk :=
  {| delta := Some {| delta_content := Some (of_ascii s) |} |}.

(** ** [main.py]: the transcript loop of [entrypoint]

    [process_stt_stream] inside [transcribe_track]. The recognition stream
    delivers its events and then either ends or fails; [async for event in
    stt_stream] has no [try] around it, so a failing stream raises out of
    the loop, and so does the [IndexError] of [event.alternatives[0]]. *)

Module Entrypoint.

Inductive SpeechEventType :=
| START_OF_SPEECH | INTERIM_TRANSCRIPT | FINAL_TRANSCRIPT | END_OF_SPEECH.

Record SpeechData := { sd_text : str }.

Record SpeechEvent := {
  ev_type : SpeechEventType;
  alternatives : list SpeechData
}.

(** How the loop ends: the stream is exhausted, the stream raises, or an
    exception of the loop body leaves it. *)
Inductive LoopExit :=
| StreamEnded
| StreamFailed
| IndexError
| Propagated (e : Exn).

(** [for sentence in sentences: if len(sentence) > 5: await
    session_manager.handle_transcription(sentence, track)]. *)
Fixpoint for_each_sentence (sentences : list str) (track : option Track)
  : M RoomSessionManager unit :=
  match sentences with
  | [] => ret tt
  | sentence :: rest =>
      run (if 5 <? length sentence
           then RoomSessionManager.handle_transcription sentence track
           else ret tt) in
      for_each_sentence rest track
  end.

(** [events] are what the stream delivers; [breaks] tells whether it then
    raises instead of ending. *)
Fixpoint process_stt_stream (events : list SpeechEvent) (breaks : bool)
    (track : option Track) (last_transcript : str)
    (session_manager : RoomSessionManager) (w : World)
  : LoopExit * str * RoomSessionManager * World :=
  match events with
  | [] =>
      (if breaks then StreamFailed else StreamEnded,
       last_transcript, session_manager, w)
  | event :: rest =>
      match ev_type event with
      | FINAL_TRANSCRIPT =>
          match alternatives event with
          | [] => (IndexError, last_transcript, session_manager, w)
          | alt :: _ =>
              let text := strip (sd_text alt) in
              if negb (is_empty text) && negb (str_eqb text last_transcript) then
                let last_transcript := text in
                let sentences := Segmenter.extract_complete_sentences text in
                match for_each_sentence sentences track session_manager w with
                | (Ok _, session_manager', w') =>
                    process_stt_stream rest breaks track last_transcript
                      session_manager' w'
                | (Raise e, session_manager', w') =>
                    (Propagated e, last_transcript, session_manager', w')
                end
              else process_stt_stream rest breaks track last_transcript
                     session_manager w
          end
      | INTERIM_TRANSCRIPT =>
          match alternatives event with
          | [] => (IndexError, last_transcript, session_manager, w)
          | alt :: _ =>
              process_stt_stream rest breaks track last_transcript
                session_manager w
          end
      | _ => process_stt_stream rest breaks track last_transcript session_manager w
      end
  end.

End Entrypoint.

(** ** Further vocabulary *)

(** A string that ends in a terminal punctuation mark. *)
Definition ends_in_terminator (s : str) : Prop :=
  exists body t, s = body ++ [t] /\ Segmenter.is_ending t = true.

(** [handle_transcription] on each sentence in turn, with no length test. *)
Fixpoint handle_each (sentences : list str) (track : option Track)
  : M RoomSessionManager unit :=
  match sentences with
  | [] => ret tt
  | sentence :: rest =>
      run RoomSessionManager.handle_transcription sentence track in
      handle_each rest track
  end.

(** The rows of a room that are active. *)
Definition active_rows (w : World) (room_id : Z) : list SessionRow :=
  List.filter (fun r => (sr_room_id r =? room_id)%Z && is_active (sr_status r))
    (room_sessions (db w)).

(** The first session row carrying an id. *)
Definition session_row (w : World) (session_id : str) : option SessionRow :=
  head (List.filter (fun r => str_eqb (sr_id r) session_id) (room_sessions (db w))).

(** The first room row with a LiveKit name, and the first with an id. *)
Definition room_by_name (w : World) (n : str) : option RoomData :=
  head (List.filter (fun r => str_eqb (rd_Livekit_room_name r) n) (rooms (db w))).

Definition room_by_id (w : World) (room_id : Z) : option RoomData :=
  head (List.filter (fun r => rd_id r =? room_id)%Z (rooms (db w))).

Definition final_event (s : string) : Entrypoint.SpeechEvent :=
  {| Entrypoint.ev_type := Entrypoint.FINAL_TRANSCRIPT;
     Entrypoint.alternatives := [{| Entrypoint.sd_text := of_ascii s |}] |}.

(** The message a call appends for its text. *)
Definition user_message (text : str) : ChatMessage :=
  {| role := user; content := text |}.

(** ** Properties of [strip] *)

Section StripFacts.

Lemma lstrip_length (s : str) : length (lstrip s) <= length s.
Proof.
  induction s as [|c s IH]; simpl; [lia|].
  destruct (is_space c); simpl; lia.
Qed.

Lemma lstrip_app_cases (u v : str) :
  (lstrip u = [] /\ lstrip (u ++ v) = lstrip v)
  \/ (lstrip u <> [] /\ lstrip (u ++ v) = lstrip u ++ v).
Proof.
  induction u as [|c u IH]; simpl.
  - left; split; reflexivity.
  - destruct (is_space c).
    + exact IH.
    + right; split; [discriminate | reflexivity].
Qed.

Lemma lstrip_length_app_l (a s : str) :
  length (lstrip s) <= length (lstrip (a ++ s)).
Proof.
  destruct (lstrip_app_cases a s) as [[_ ->]|[_ ->]]; [lia|].
  rewrite length_app. pose proof (lstrip_length s). lia.
Qed.

Lemma lstrip_length_app_r (u v : str) :
  length (lstrip u) <= length (lstrip (u ++ v)).
Proof.
  destruct (lstrip_app_cases u v) as [[-> _]|[_ ->]]; simpl; [lia|].
  rewrite length_app. lia.
Qed.

Lemma rstrip_length_app_l (a s : str) :
  length (rstrip s) <= length (rstrip (a ++ s)).
Proof.
  unfold rstrip. rewrite !length_rev, rev_app_distr.
  apply lstrip_length_app_r.
Qed.

Lemma rstrip_length_app_r (s b : str) :
  length (rstrip s) <= length (rstrip (s ++ b)).
Proof.
  unfold rstrip. rewrite !length_rev, rev_app_distr.
  apply lstrip_length_app_l.
Qed.

Lemma lstrip_suffix (s : str) : exists sp, s = sp ++ lstrip s.
Proof.
  induction s as [|c s [sp IH]]; simpl.
  - exists []; reflexivity.
  - destruct (is_space c).
    + exists (c :: sp). simpl. congruence.
    + exists []; reflexivity.
Qed.

Lemma strip_length_app_l (a s : str) :
  length (strip s) <= length (strip (a ++ s)).
Proof.
  unfold strip.
  destruct (lstrip_app_cases a s) as [[_ ->]|[_ ->]]; [lia|].
  destruct (lstrip_suffix s) as [sp Hsp].
  rewrite Hsp at 2. rewrite app_assoc.
  apply rstrip_length_app_l.
Qed.

Lemma strip_length_app_r (s b : str) :
  length (strip s) <= length (strip (s ++ b)).
Proof.
  unfold strip.
  destruct (lstrip_app_cases s b) as [[-> _]|[_ ->]]; simpl; [lia|].
  apply rstrip_length_app_r.
Qed.

Lemma strip_nil : strip [] = [].
Proof. reflexivity. Qed.

End StripFacts.

(** ** The sentence segmenter *)

Section SegmenterFacts.

Import Segmenter.

Lemma scan_app (a b : str) (sentences : list str) (current : str) :
  scan (a ++ b) sentences current =
  scan b (fst (scan a sentences current)) (snd (scan a sentences current)).
Proof.
  revert sentences current.
  induction a as [|c a IH]; intros sentences current; simpl; [reflexivity|].
  destruct (is_ending c); apply IH.
Qed.

Lemma scan_unterminated (t : str) (sentences : list str) (current : str) :
  forallb (fun c => negb (is_ending c)) t = true ->
  scan t sentences current = (sentences, current ++ t).
Proof.
  revert current.
  induction t as [|c t IH]; intros current H; simpl in *.
  - by rewrite app_nil_r.
  - apply andb_prop in H as [Hc Ht].
    destruct (is_ending c); [discriminate|].
    rewrite IH by assumption. by rewrite <- app_assoc.
Qed.

(** Every sentence the loop emits is longer than 5 and no longer than the
    trimmed text it was cut from. *)
Lemma scan_emitted (text : str) (sentences : list str) (current : str) :
  exists emitted,
    fst (scan text sentences current) = sentences ++ emitted
    /\ Forall (fun e => 5 < length e
                        /\ length e <= length (strip (current ++ text))) emitted.
Proof.
  revert sentences current.
  induction text as [|c text IH]; intros sentences current; simpl.
  - exists []. by rewrite app_nil_r.
  - assert (Hcons : current ++ c :: text = (current ++ [c]) ++ text)
      by (by rewrite <- app_assoc).
    destruct (is_ending c).
    + destruct (5 <? length (strip (current ++ [c]))) eqn:Hlen.
      * destruct (IH (sentences ++ [strip (current ++ [c])]) []) as (em & Hem & Hall).
        exists (strip (current ++ [c]) :: em). split.
        { rewrite Hem. by rewrite <- app_assoc. }
        constructor.
        { split; [by apply Nat.ltb_lt|].
          rewrite Hcons. apply strip_length_app_r. }
        eapply Forall_impl; [exact Hall|].
        intros e [H5 Hle]. split; [exact H5|].
        etrans; [exact Hle|]. simpl. rewrite Hcons. apply strip_length_app_l.
      * destruct (IH sentences []) as (em & Hem & Hall).
        exists em. split; [exact Hem|].
        eapply Forall_impl; [exact Hall|].
        intros e [H5 Hle]. split; [exact H5|].
        etrans; [exact Hle|]. simpl. rewrite Hcons. apply strip_length_app_l.
    + destruct (IH sentences (current ++ [c])) as (em & Hem & Hall).
      exists em. split; [exact Hem|]. by rewrite Hcons.
Qed.

Lemma scan_short_text (text : str) :
  length (strip text) < 3 -> fst (scan text [] []) = [].
Proof.
  intros Hshort.
  destruct (scan_emitted text [] []) as (em & Hem & Hall).
  rewrite Hem. simpl in *.
  destruct em as [|e em]; [reflexivity|].
  apply Forall_cons in Hall as [[H5 Hle] _]. lia.
Qed.

(** A text that is empty or ends in a terminator leaves nothing pending. *)
Lemma scan_closed (pre : str) :
  pre = [] \/ (exists p t, pre = p ++ [t] /\ is_ending t = true) ->
  snd (scan pre [] []) = [].
Proof.
  intros [->|(p & t & -> & Ht)]; [reflexivity|].
  rewrite scan_app. simpl. by rewrite Ht.
Qed.

Lemma extract_closed (pre : str) :
  pre = [] \/ (exists p t, pre = p ++ [t] /\ is_ending t = true) ->
  extract_complete_sentences pre = fst (scan pre [] []).
Proof.
  intros Hpre. unfold extract_complete_sentences.
  pose proof (scan_closed pre Hpre) as Hsnd.
  destruct (scan pre [] []) as [sentences current] eqn:Hscan. simpl in *.
  subst current. simpl.
  destruct pre as [|c0 pre0] eqn:Epre; simpl.
  - by inversion Hscan.
  - rewrite <- Epre in *. clear Epre.
    destruct (length (strip pre) <? 3) eqn:Hlen; [|reflexivity].
    apply Nat.ltb_lt in Hlen. apply scan_short_text in Hlen.
    rewrite Hscan in Hlen. by simpl in Hlen.
Qed.

End SegmenterFacts.

(** C6. A text whose only terminal punctuation mark is its last character
    and whose trimmed length exceeds 5 is returned as exactly one sentence,
    trimmed of surrounding whitespace. *)
Theorem extract_single_terminated_sentence (body : str) (t : N) :
  Segmenter.is_ending t = true ->
  forallb (fun c => negb (Segmenter.is_ending c)) body = true ->
  5 < length (strip (body ++ [t])) ->
  Segmenter.extract_complete_sentences (body ++ [t]) = [strip (body ++ [t])].
Proof.
  intros Ht Hbody Hlen.
  unfold Segmenter.extract_complete_sentences.
  assert (Hne : is_empty (body ++ [t]) = false) by (by destruct body).
  assert (H3 : (length (strip (body ++ [t])) <? 3) = false)
    by (apply Nat.ltb_ge; lia).
  rewrite Hne, H3, scan_app, (scan_unterminated body) by assumption.
  cbn [orb fst snd app Segmenter.scan]. rewrite Ht.
  apply Nat.ltb_lt in Hlen. rewrite Hlen. reflexivity.
Qed.

Lemma extract_single_terminated_sentence_witness :
  Segmenter.extract_complete_sentences (of_ascii "  Peace be upon you. ")
  = [strip (of_ascii "  Peace be upon you. ")]
  /\ Segmenter.extract_complete_sentences
       ([1575; 1604; 1587; 1604; 1575; 1605; 32; 1593; 1604; 1610; 1603; 1605] ++ [1567])%N
     = [strip ([1575; 1604; 1587; 1604; 1575; 1605; 32; 1593; 1604; 1610; 1603; 1605] ++ [1567])%N].
Proof.
  split.
  - vm_compute. reflexivity.
  - apply extract_single_terminated_sentence.
    + reflexivity.
    + reflexivity.
    + vm_compute. lia.
Defined.

(** C7. The unterminated text left after the last terminal punctuation mark
    (the whole input when there is none) is dropped when its trimmed length
    is at most 10, and is emitted trimmed as the last element when its
    trimmed length exceeds 10. *)
Theorem extract_trailing_text (pre tail : str) :
  pre = [] \/ (exists p t, pre = p ++ [t] /\ Segmenter.is_ending t = true) ->
  forallb (fun c => negb (Segmenter.is_ending c)) tail = true ->
  (length (strip tail) <= 10 ->
   Segmenter.extract_complete_sentences (pre ++ tail)
   = Segmenter.extract_complete_sentences pre)
  /\ (10 < length (strip tail) ->
      Segmenter.extract_complete_sentences (pre ++ tail)
      = Segmenter.extract_complete_sentences pre ++ [strip tail]).
Proof.
  intros Hpre Htail.
  rewrite (extract_closed pre Hpre).
  pose proof (scan_closed pre Hpre) as Hsnd.
  unfold Segmenter.extract_complete_sentences.
  rewrite scan_app, Hsnd, (scan_unterminated tail) by assumption.
  cbn [app].
  split; intros Hlen.
  - assert (H10 : (10 <? length (strip tail)) = false)
      by (apply Nat.ltb_ge; lia).
    rewrite H10.
    destruct (is_empty (pre ++ tail) || (length (strip (pre ++ tail)) <? 3))
      eqn:Hguard; [|reflexivity].
    apply orb_prop in Hguard as [Hnil|Hshort].
    + destruct pre; [reflexivity | discriminate].
    + apply Nat.ltb_lt in Hshort.
      symmetry. apply scan_short_text.
      pose proof (strip_length_app_r pre tail). lia.
  - pose proof (strip_length_app_l pre tail) as Hmono.
    assert (Hne : is_empty (pre ++ tail) = false).
    { destruct pre; [|reflexivity]. destruct tail; [|reflexivity].
      simpl in Hlen. lia. }
    assert (H3 : (length (strip (pre ++ tail)) <? 3) = false)
      by (apply Nat.ltb_ge; lia).
    rewrite Hne, H3. cbn [orb].
    apply Nat.ltb_lt in Hlen. rewrite Hlen. reflexivity.
Qed.

Lemma extract_trailing_text_witness :
  (Segmenter.extract_complete_sentences
     (of_ascii "Praise be to God. " ++ of_ascii " and then   ")
   = Segmenter.extract_complete_sentences (of_ascii "Praise be to God. "))
  /\ (Segmenter.extract_complete_sentences
        (of_ascii "Praise be to God." ++ of_ascii " Lord of the worlds ")
      = Segmenter.extract_complete_sentences (of_ascii "Praise be to God.")
        ++ [strip (of_ascii " Lord of the worlds ")]).
Proof.
  split.
  - vm_compute. reflexivity.
  - refine (proj2 (extract_trailing_text (of_ascii "Praise be to God.")
                     (of_ascii " Lord of the worlds ") _ _) _).
    + right. exists (of_ascii "Praise be to God"), 46%N. split; reflexivity.
    + reflexivity.
    + vm_compute. lia.
Defined.

(** The sentence of the sample scenario, one short fragment that is dropped,
    and a long unterminated remainder. *)
Example extract_samples :
  Segmenter.extract_complete_sentences
    [1575; 1604; 1587; 1604; 1575; 1605; 32; 1593; 1604; 1610; 1603; 1605; 32;
     1608; 1585; 1581; 1605; 1577; 32; 1575; 1604; 1604; 1607; 46]%N
  = [[1575; 1604; 1587; 1604; 1575; 1605; 32; 1593; 1604; 1610; 1603; 1605; 32;
      1608; 1585; 1581; 1605; 1577; 32; 1575; 1604; 1604; 1607; 46]%N]
  /\ Segmenter.extract_complete_sentences (of_ascii "Yes! It is a long day. and so on and on")
     = [of_ascii "It is a long day."; of_ascii "and so on and on"]
  /\ Segmenter.extract_complete_sentences (of_ascii "ok") = [].
Proof. vm_compute. repeat split; reflexivity. Qed.

(** ** The translation service *)

Create HintDb py discriminated.

#[global] Hint Unfold ret bind raise try_except get_self modify_self get_world
  modify_world db_request utcnow shortuuid llm_chat publish_transcription
  http_post : py.

#[global] Hint Unfold TranslationService.translate_text
  TranslationService._publish_transcription TranslationService.collect : py.

Ltac py_step := autounfold with py; cbn.

Ltac py_cases := repeat (case_match; simplify_eq/=; try done; try congruence).

Section TranslationFacts.

Import TranslationService.

Lemma translate_text_self (text : str) (track : option Track)
    (self : TranslationService) (w : World) :
  snd (fst (translate_text text track self w)) = advance text self.
Proof.
  unfold advance, system_message. py_step.
  destruct self as [rm tl sl uc ctx mc mx sp]; cbn.
  destruct uc; cbn.
  - destruct (mx <? mc + 1); cbn; py_cases.
  - py_cases.
Qed.

Lemma events_since_app (w w' : World) (evs : list Event) :
  trace w' = trace w ++ evs -> events_since w w' = evs.
Proof. unfold events_since. intros ->. apply drop_app_length. Qed.

End TranslationFacts.

(** C3. When the completion collaborator raises or its stream fails,
    [translate_text] returns the original input text unchanged and raises
    nothing. *)
Theorem translate_text_passthrough (text : str) (track : option Track)
    (self : TranslationService) (w : World) :
  completion_fails w = true ->
  fst (fst (TranslationService.translate_text text track self w)) = Ok text.
Proof.
  unfold completion_fails. intros Hfail. py_step. py_cases.
Qed.

Lemma translate_text_passthrough_witness :
  fst (fst (TranslationService.translate_text (of_ascii "salam alaykum.")
              sample_track masjid_service
              (sample_world [] [ChatStream [text_chunk "Peace"] true])))
  = Ok (of_ascii "salam alaykum.").
Proof. apply translate_text_passthrough. reflexivity. Defined.

Ltac trace_since :=
  unfold events_since; cbn;
  rewrite <- ?app_assoc; rewrite ?drop_app_length; cbn.

(** C2, as the code has it. A call whose completion stream is read to its
    end issues exactly one publish, of a caption attributed to the local
    participant and the given track, final, with start and end time zero and
    the trimmed translation as text; the caption reaches the room unless the
    room's publish call fails. A call whose completion fails returns the
    input text and publishes nothing. *)
Theorem translate_text_caption (text : str) (track : option Track)
    (self : TranslationService) (w : World) :
  let '(r, _, w') := TranslationService.translate_text text track self w in
  match head_or ChatRaises (llm_replies (script w)) with
  | ChatStream chunks false =>
      let translated := strip (joined chunks) in
      exists id,
        r = Ok translated
        /\ published (events_since w w') = [caption_of self track id translated]
        /\ captions w' =
           if head_or false (publish_faults (script w)) then captions w
           else captions w ++ [caption_of self track id translated]
  | _ =>
      r = Ok text
      /\ published (events_since w w') = []
      /\ captions w' = captions w
  end.
Proof.
  py_step. py_cases; unfold caption_of, joined.
  all: try (split; [reflexivity|split; [by trace_since|reflexivity]]).
  all: try (eexists; split; [reflexivity|split; [by trace_since|reflexivity]]).
Qed.

(** The passing case on a sample: the stream's chunks are joined and trimmed,
    and the one caption carries that text. *)
Example translate_text_sample :
  let w := sample_world [] [ChatStream [text_chunk " Peace be ";
                                        {| delta := None |};
                                        text_chunk "upon you. "] false] in
  let '(r, _, w') :=
    TranslationService.translate_text (of_ascii "salam alaykum.") sample_track
      masjid_service w in
  r = Ok (of_ascii "Peace be upon you.")
  /\ captions w'
     = [caption_of masjid_service sample_track (of_ascii "SG_0")
          (of_ascii "Peace be upon you.")].
Proof. vm_compute. split; reflexivity. Qed.

(** C2 fails as stated: here the completion collaborator raises, the call
    returns the input text, and no caption is published. *)
Lemma translate_text_caption_counterexample :
  let '(r, _, w') :=
    TranslationService.translate_text (of_ascii "salam alaykum.") sample_track
      masjid_service (sample_world [] [ChatRaises]) in
  r = Ok (of_ascii "salam alaykum.")
  /\ ~ (exists t, published (events_since (sample_world [] [ChatRaises]) w') = [t])
  /\ captions w' = [].
Proof.
  vm_compute. split; [reflexivity|]. split; [|reflexivity].
  intros [t Ht]. discriminate Ht.
Qed.

(** C9. When the append pushes the count past the ceiling, the request of
    that same call is made against the system message alone: the text that
    triggered the reset is not part of it. *)
Theorem reset_discards_triggering_message (text : str) (track : option Track)
    (self : TranslationService) (w : World) :
  use_context self = true ->
  max_context_messages self < message_count self + 1 ->
  let '(_, self', w') := TranslationService.translate_text text track self w in
  chat_requests (events_since w w') = [[system_message self]]
  /\ ({| role := user; content := text |} ∉ [system_message self])
  /\ context self' = [system_message self].
Proof.
  intros Huse Hover. apply Nat.ltb_lt in Hover.
  destruct self as [rm tl sl uc ctx mc mx sp]. cbn in *. subst uc.
  unfold system_message. py_step. rewrite Hover. cbn.
  assert (Hnotin : {| role := user; content := text |}
                   ∉ [{| role := system; content := sp |}]).
  { intros Hin. apply list_elem_of_singleton in Hin. discriminate Hin. }
  py_cases; (split; [by trace_since|split; [exact Hnotin|reflexivity]]).
Qed.

Lemma reset_discards_triggering_message_witness :
  let self9 :=
    fst (translate_all (replicate 9 (of_ascii "a full sentence.")) sample_track
           masjid_service (sample_world [] [])) in
  let '(_, self', w') :=
    TranslationService.translate_text (of_ascii "the tenth sentence.")
      sample_track self9 (sample_world [] [ChatStream [text_chunk "ok"] false]) in
  chat_requests (events_since (sample_world [] [ChatStream [text_chunk "ok"] false]) w')
  = [[system_message self9]]
  /\ ({| role := user; content := of_ascii "the tenth sentence." |}
      ∉ [system_message self9])
  /\ context self' = [system_message self9].
Proof.
  intros self9.
  apply (reset_discards_triggering_message (of_ascii "the tenth sentence.")
           sample_track self9
           (sample_world [] [ChatStream [text_chunk "ok"] false])).
  - reflexivity.
  - vm_compute. lia.
Defined.

Section ContextFacts.

Lemma translate_all_self (texts : list str) (track : option Track)
    (self : TranslationService) (w : World) :
  fst (translate_all texts track self w)
  = fold_left (fun s t => advance t s) texts self.
Proof.
  revert self w.
  induction texts as [|text texts IH]; intros self w; simpl; [reflexivity|].
  pose proof (translate_text_self text track self w) as Hself.
  destruct (TranslationService.translate_text text track self w) as [[r self'] w'].
  simpl in Hself. subst self'. apply IH.
Qed.

Lemma init_invariant (room : Room) (target source : str) :
  context_invariant
    (system_message (TranslationService.__init__ room target source))
    (TranslationService.__init__ room target source)
  /\ message_count (TranslationService.__init__ room target source) = 0.
Proof.
  split; [|reflexivity].
  repeat split. exists []. repeat split; simpl; [constructor|lia].
Qed.

Lemma advance_invariant (sys : ChatMessage) (text : str) (self : TranslationService) :
  context_invariant sys self ->
  context_invariant sys (advance text self)
  /\ message_count (advance text self) = (message_count self + 1) mod 10.
Proof.
  intros (Huse & Hmax & Hsys & users & Hctx & Husers & Hlen & Hle).
  unfold advance. rewrite Huse, Hmax.
  destruct (9 <? message_count self + 1) eqn:Hcmp.
  - apply Nat.ltb_lt in Hcmp.
    assert (Hcount : message_count self = 9) by lia.
    split.
    + repeat split; try assumption.
      exists []. cbn. rewrite Hsys. repeat split; [constructor|lia].
    + rewrite Hcount. reflexivity.
  - apply Nat.ltb_ge in Hcmp.
    split.
    + repeat split; try assumption.
      exists (users ++ [{| role := user; content := text |}]). cbn.
      rewrite Hctx, length_app. cbn. repeat split; try lia.
      apply Forall_app. split; [assumption|]. by constructor.
    + change (message_count self + 1 = (message_count self + 1) mod 10).
      symmetry. apply Nat.mod_small. lia.
Qed.

Lemma fold_advance_invariant (sys : ChatMessage) (texts : list str)
    (self : TranslationService) :
  context_invariant sys self ->
  context_invariant sys (fold_left (fun s t => advance t s) texts self)
  /\ message_count (fold_left (fun s t => advance t s) texts self)
     = (message_count self + length texts) mod 10.
Proof.
  revert self.
  induction texts as [|text texts IH]; intros self Hinv; cbn [fold_left length].
  - split; [assumption|].
    destruct Hinv as (_ & _ & _ & users & _ & _ & Hlen & Hle).
    rewrite Nat.add_0_r, Nat.mod_small; lia.
  - destruct (advance_invariant sys text self Hinv) as [Hinv' Hcount].
    destruct (IH _ Hinv') as [Hinv'' Hcount'].
    split; [assumption|].
    rewrite Hcount', Hcount.
    rewrite Nat.Div0.add_mod_idemp_l. f_equal. lia.
Qed.

End ContextFacts.

Section WindowCount.

(** The rolling window after any run of calls on a fresh service: the texts
    given since the last reset, in order, and their number. *)
Lemma fold_advance_window (room : Room) (target source : str) (texts : list str) :
  let self0 := TranslationService.__init__ room target source in
  let self := fold_left (fun s t => advance t s) texts self0 in
  use_context self = true
  /\ max_context_messages self = 9
  /\ system_message self = system_message self0
  /\ context self
     = system_message self0
       :: map user_message (drop (10 * (length texts / 10)) texts)
  /\ message_count self = length texts mod 10.
Proof.
  intros self0.
  induction texts as [|t texts IH] using rev_ind; [by repeat split|].
  destruct IH as (Huse & Hmax & Hsys & Hctx & Hcount).
  rewrite fold_left_app. cbn [fold_left].
  set (self := fold_left (fun s t => advance t s) texts self0) in *.
  rewrite length_app. cbn [length].
  set (n := length texts) in *.
  pose proof (Nat.div_mod_eq n 10) as Hn.
  pose proof (Nat.mod_upper_bound n 10) as Hnlt.
  pose proof (Nat.div_mod_eq (n + 1) 10) as Hn1.
  pose proof (Nat.mod_upper_bound (n + 1) 10) as Hn1lt.
  unfold advance. rewrite Huse, Hmax, Hcount.
  destruct (9 <? n mod 10 + 1) eqn:Hcmp.
  - apply Nat.ltb_lt in Hcmp.
    assert (Hfull : 10 * ((n + 1) / 10) = n + 1) by lia.
    assert (Hzero : (n + 1) mod 10 = 0) by lia.
    unfold system_message in *.
    cbn [use_context max_context_messages context message_count system_prompt
         TranslationService.set_context TranslationService.set_message_count].
    rewrite Hfull, Hzero.
    rewrite drop_ge by (rewrite length_app; cbn [length]; lia).
    cbn [map]. rewrite Hsys. by repeat split.
  - apply Nat.ltb_ge in Hcmp.
    assert (Hsame : 10 * ((n + 1) / 10) = 10 * (n / 10)) by lia.
    assert (Hnext : (n + 1) mod 10 = n mod 10 + 1) by lia.
    unfold system_message in *.
    cbn [use_context max_context_messages context message_count system_prompt
         TranslationService.set_context TranslationService.set_message_count].
    rewrite Hctx, Hsame, Hnext.
    rewrite drop_app_le by (fold n; lia).
    rewrite map_app. cbn [map app]. by repeat split.
Qed.

End WindowCount.

(** C4. After [n] successive [translate_text] calls on a fresh service the
    context is the fixed system message followed by the user messages of the
    calls made since the last reset, [n mod 10] of them and so at most 9: the
    ninth call fills the window, the tenth resets the context to the system
    message alone (length 1) and the counter to zero, and the next call
    starts a new window. *)
Theorem conversation_context_bounded (room : Room) (target source : str)
    (texts : list str) (track : option Track) (w : World) :
  let self0 := TranslationService.__init__ room target source in
  let self := fst (translate_all texts track self0 w) in
  (context self
   = system_message self0
     :: map user_message (drop (10 * (length texts / 10)) texts)
   /\ message_count self = length texts mod 10)
  /\ (exists users,
        context self = system_message self0 :: users
        /\ Forall (fun m => role m = user) users
        /\ length users = message_count self
        /\ length users <= 9)
  /\ (forall text w',
        message_count self = 9 ->
        let self' := snd (fst (TranslationService.translate_text text track self w')) in
        context self' = [system_message self0] /\ message_count self' = 0)
  /\ (length texts = 9 ->
      message_count self = 9
      /\ context self = system_message self0 :: map user_message texts
      /\ forall text w',
           let self' := snd (fst (TranslationService.translate_text text track self w')) in
           context self' = [system_message self0] /\ message_count self' = 0)
  /\ (length texts = 10 ->
      context self = [system_message self0]
      /\ length (context self) = 1
      /\ message_count self = 0).
Proof.
  intros self0 self. subst self. rewrite translate_all_self.
  destruct (fold_advance_window room target source texts)
    as (Huse & Hmax & Hsys & Hctx & Hcount).
  fold self0 in Huse, Hmax, Hsys, Hctx, Hcount.
  set (self := fold_left (fun s t => advance t s) texts self0) in *.
  pose proof (Nat.mod_upper_bound (length texts) 10) as Hlt.
  pose proof (Nat.div_mod_eq (length texts) 10) as Hdiv.
  assert (Hlen : length (drop (10 * (length texts / 10)) texts)
                 = length texts mod 10)
    by (rewrite length_drop; lia).
  assert (Hreset : forall text w',
            message_count self = 9 ->
            let self' := snd (fst (TranslationService.translate_text text track self w')) in
            context self' = [system_message self0] /\ message_count self' = 0).
  { intros text w' H9. cbn zeta. rewrite translate_text_self.
    unfold advance. rewrite Huse, Hmax, H9. cbn. by rewrite Hsys. }
  split; [by split|]. split; [|split; [exact Hreset|split]].
  - exists (map user_message (drop (10 * (length texts / 10)) texts)).
    split; [exact Hctx|]. split.
    + apply Forall_forall. intros m Hin.
      apply list_elem_of_fmap in Hin as (t & -> & _). reflexivity.
    + rewrite length_map, Hlen, Hcount. split; [reflexivity|lia].
  - intros H9.
    assert (Hc9 : message_count self = 9) by (rewrite Hcount, H9; reflexivity).
    split; [exact Hc9|]. split.
    + rewrite Hctx, H9. reflexivity.
    + intros text w'. by apply Hreset.
  - intros H10. rewrite H10 in Hctx, Hcount.
    change (10 * (10 / 10)) with 10 in Hctx.
    rewrite drop_ge in Hctx by lia.
    rewrite Hctx. by repeat split.
Qed.

Lemma conversation_context_bounded_witness :
  let self0 := masjid_service in
  let nine := replicate 9 (of_ascii "a full sentence.") in
  let w := sample_world [] [ChatStream [text_chunk "ok"] false; ChatRaises] in
  let self9 := fst (translate_all nine sample_track self0 w) in
  let self10 :=
    fst (translate_all (nine ++ [of_ascii "the tenth sentence."]) sample_track self0 w) in
  (message_count self9 = 9
   /\ context self9 = system_message self0 :: map user_message nine
   /\ forall text w',
        let self' :=
          snd (fst (TranslationService.translate_text text sample_track self9 w')) in
        context self' = [system_message self0] /\ message_count self' = 0)
  /\ (context self10 = [system_message self0]
      /\ length (context self10) = 1
      /\ message_count self10 = 0).
Proof.
  intros self0 nine w self9 self10. split.
  - refine (proj1 (proj2 (proj2 (proj2 (conversation_context_bounded masjid_room
              (of_ascii "en") (of_ascii "ar") nine sample_track w)))) _).
    reflexivity.
  - refine (proj2 (proj2 (proj2 (proj2 (conversation_context_bounded masjid_room
              (of_ascii "en") (of_ascii "ar")
              (nine ++ [of_ascii "the tenth sentence."]) sample_track w)))) _).
    reflexivity.
Defined.

(** ** The datastore service *)

#[global] Hint Unfold select_active_sessions insert_session update_sessions
  insert_transcript select_transcript_count select_rooms_by_name
  select_room_languages : py.

Section ServiceFacts.

Context {S : Type}.

Lemma reliable_step (req : DbRequest) (w : World) :
  reliable w = true ->
  db_fails w = false /\ reliable (after_db_request req w) = true.
Proof.
  unfold reliable, db_fails, after_db_request. cbn.
  destruct (db_faults (script w)) as [|b l]; cbn; [done|].
  intros [Hb Hl]%andb_prop. by destruct b.
Qed.

Lemma get_active_session_run (room_id : Z) (self : S) (w : World) :
  SupabaseService.get_active_session room_id self w
  = (Ok (if db_fails w then None else active_session_row w room_id), self,
     after_db_request (SelectActiveSession room_id) w).
Proof.
  unfold SupabaseService.get_active_session, active_session_row, db_fails,
    after_db_request.
  py_step. destruct (head_or false (db_faults (script w))); cbn; [reflexivity|].
  destruct (List.filter _ _); reflexivity.
Qed.

Lemma is_session_logging_enabled_run (room_id : Z) (self : S) (w : World) :
  SupabaseService.is_session_logging_enabled room_id self w
  = (Ok (if db_fails w then false
         else match active_session_row w room_id with
              | Some row => default false (sr_logging_enabled row)
              | None => false
              end),
     self, after_db_request (SelectActiveSession room_id) w).
Proof.
  unfold SupabaseService.is_session_logging_enabled, try_except, bind.
  rewrite get_active_session_run.
  destruct (db_fails w); [reflexivity|].
  destruct (active_session_row w room_id); reflexivity.
Qed.

End ServiceFacts.

(** ** The session coordinator *)

Section CoordinatorFacts.

Lemma events_after_db_request (req : DbRequest) (w : World) :
  events_since w (after_db_request req w) = [DbCall req].
Proof. by apply events_since_app. Qed.

(** When the logging check answers [false], [handle_transcription] stops at
    the gate. *)
Lemma handle_transcription_gate (text : str) (track : option Track)
    (self : RoomSessionManager) (w : World)
    (ts : TranslationService) (session : SessionInfo) (rd : RoomData) :
  translation_service self = Some ts ->
  active_session self = Some session ->
  room_data self = Some rd ->
  (if db_fails w then false
   else match active_session_row w (rd_id rd) with
        | Some row => default false (sr_logging_enabled row)
        | None => false
        end) = false ->
  stops_at_gate self w (rd_id rd)
    (RoomSessionManager.handle_transcription text track self w).
Proof.
  intros Hts Hsession Hrd Hflag.
  unfold RoomSessionManager.handle_transcription, try_except, bind, get_self.
  rewrite Hts, Hsession, Hrd, is_session_logging_enabled_run, Hflag.
  cbn [negb ret]. unfold stops_at_gate.
  rewrite events_after_db_request.
  repeat split; reflexivity.
Qed.

End CoordinatorFacts.

(** C10. With no active session row for the room, or when the datastore
    query raises, [is_session_logging_enabled] returns [False], and
    [handle_transcription] returns at once: no translation, no caption, no
    persistence, no notification, although the coordinator still holds its
    cached session. *)
Theorem no_active_row_skips_sentence (text : str) (track : option Track)
    (self : RoomSessionManager) (w : World)
    (ts : TranslationService) (session : SessionInfo) (rd : RoomData) :
  translation_service self = Some ts ->
  active_session self = Some session ->
  room_data self = Some rd ->
  db_fails w = true \/ active_session_row w (rd_id rd) = None ->
  fst (fst (SupabaseService.is_session_logging_enabled (rd_id rd) self w)) = Ok false
  /\ stops_at_gate self w (rd_id rd)
       (RoomSessionManager.handle_transcription text track self w).
Proof.
  intros Hts Hsession Hrd Hnone.
  assert (Hflag : (if db_fails w then false
                   else match active_session_row w (rd_id rd) with
                        | Some row => default false (sr_logging_enabled row)
                        | None => false
                        end) = false).
  { destruct Hnone as [-> | ->]; [reflexivity|]. by destruct (db_fails w). }
  split.
  - rewrite is_session_logging_enabled_run, Hflag. reflexivity.
  - by eapply handle_transcription_gate.
Qed.

Lemma no_active_row_skips_sentence_witness :
  (fst (fst (SupabaseService.is_session_logging_enabled 7 sample_manager
               (scenario [sample_row completed (Some true)] [] [])))
   = Ok false
   /\ stops_at_gate sample_manager
        (scenario [sample_row completed (Some true)] [] []) 7
        (RoomSessionManager.handle_transcription (of_ascii "salam alaykum.")
           sample_track sample_manager
           (scenario [sample_row completed (Some true)] [] [])))
  /\ stops_at_gate sample_manager
       (scenario [sample_row active (Some true)] [true] []) 7
       (RoomSessionManager.handle_transcription (of_ascii "salam alaykum.")
          sample_track sample_manager
          (scenario [sample_row active (Some true)] [true] [])).
Proof.
  split.
  - apply (no_active_row_skips_sentence (of_ascii "salam alaykum.") sample_track
             sample_manager (scenario [sample_row completed (Some true)] [] [])
             masjid_service sample_session sample_room_data).
    + vm_compute. reflexivity.
    + vm_compute. reflexivity.
    + vm_compute. reflexivity.
    + right. vm_compute. reflexivity.
  - apply (no_active_row_skips_sentence (of_ascii "salam alaykum.") sample_track
             sample_manager (scenario [sample_row active (Some true)] [true] [])
             masjid_service sample_session sample_room_data).
    + vm_compute. reflexivity.
    + vm_compute. reflexivity.
    + vm_compute. reflexivity.
    + left. vm_compute. reflexivity.
Defined.

(** C1 fails as stated: with the session's logging flag off, the call
    neither asks for a translation nor publishes a caption. *)
Lemma handle_transcription_disabled_counterexample :
  let w := scenario [sample_row active (Some false)] []
             [ChatStream [text_chunk "Peace be upon you."] false] in
  let '(r, _, w') :=
    RoomSessionManager.handle_transcription (of_ascii "salam alaykum.")
      sample_track sample_manager w in
  translation_service sample_manager = Some masjid_service
  /\ active_session sample_manager = Some sample_session
  /\ room_data sample_manager = Some sample_room_data
  /\ active_session_row w 7 = Some (sample_row active (Some false))
  /\ r = Ok tt
  /\ chat_requests (events_since w w') = []
  /\ ~ (exists t, published (events_since w w') = [t]).
Proof.
  vm_compute. repeat split; try reflexivity.
  intros [t Ht]. discriminate Ht.
Qed.

(** C1, as the code has it. With the session's persisted logging flag off
    (or null), [handle_transcription] returns after the flag query alone: no
    translation, no caption, no persistence call, no notification call. *)
Theorem logging_disabled_skips_sentence (text : str) (track : option Track)
    (self : RoomSessionManager) (w : World)
    (ts : TranslationService) (session : SessionInfo) (rd : RoomData)
    (row : SessionRow) :
  translation_service self = Some ts ->
  active_session self = Some session ->
  room_data self = Some rd ->
  db_fails w = false ->
  active_session_row w (rd_id rd) = Some row ->
  default false (sr_logging_enabled row) = false ->
  stops_at_gate self w (rd_id rd)
    (RoomSessionManager.handle_transcription text track self w).
Proof.
  intros Hts Hsession Hrd Hdb Hrow Hoff.
  eapply handle_transcription_gate; try eassumption.
  by rewrite Hdb, Hrow.
Qed.

Lemma logging_disabled_skips_sentence_witness :
  stops_at_gate sample_manager
    (scenario [sample_row active (Some false)] []
       [ChatStream [text_chunk "Peace be upon you."] false]) 7
    (RoomSessionManager.handle_transcription (of_ascii "salam alaykum.")
       sample_track sample_manager
       (scenario [sample_row active (Some false)] []
          [ChatStream [text_chunk "Peace be upon you."] false])).
Proof.
  apply (logging_disabled_skips_sentence (of_ascii "salam alaykum.") sample_track
           sample_manager
           (scenario [sample_row active (Some false)] []
              [ChatStream [text_chunk "Peace be upon you."] false])
           masjid_service sample_session sample_room_data
           (sample_row active (Some false))).
  all: vm_compute; reflexivity.
Defined.

(** ** Session start and stop *)

Section SessionFacts.

Context {S : Type}.

Lemma start_session_existing (room_id mosque_id : Z) (self : S) (w : World)
    (row : SessionRow) :
  db_fails w = false ->
  active_session_row w room_id = Some row ->
  SupabaseService.start_session room_id mosque_id self w
  = (Ok (Some (sr_id row)), self,
     after_db_request (SelectActiveSession room_id) w).
Proof.
  intros Hdb Hrow.
  unfold SupabaseService.start_session, try_except, bind.
  by rewrite get_active_session_run, Hdb, Hrow.
Qed.

Lemma active_session_row_None (w : World) (room_id : Z) :
  active_session_row w room_id = None ->
  List.filter (fun r => (sr_room_id r =? room_id)%Z && is_active (sr_status r))
    (room_sessions (db w)) = [].
Proof.
  unfold active_session_row. by destruct (List.filter _ _).
Qed.

(** With no active row, a new one is inserted and becomes the room's active
    row. *)
Lemma start_session_fresh (room_id mosque_id : Z) (self : S) (w : World) :
  reliable w = true ->
  active_session_row w room_id = None ->
  exists row w1,
    SupabaseService.start_session room_id mosque_id self w
    = (Ok (Some (sr_id row)), self, w1)
    /\ room_sessions (db w1) = room_sessions (db w) ++ [row]
    /\ active_session_row w1 room_id = Some row
    /\ reliable w1 = true
    /\ supabase_service w1 = supabase_service w.
Proof.
  intros Hrel Hnone.
  destruct (reliable_step (SelectActiveSession room_id) w Hrel) as [Hdb Hrel1].
  destruct (reliable_step (InsertSession room_id mosque_id) _ Hrel1) as [Hdb2 Hrel2].
  unfold SupabaseService.start_session, try_except, bind.
  rewrite get_active_session_run, Hdb, Hnone.
  unfold insert_session, bind, db_request.
  fold (db_fails (after_db_request (SelectActiveSession room_id) w)).
  rewrite Hdb2.
  exists (new_session_row (next_session_id (db w)) room_id mosque_id).
  eexists. split; [reflexivity|].
  split; [reflexivity|]. split; [|split; [exact Hrel2|reflexivity]].
  unfold active_session_row. cbn -[new_session_row].
  rewrite List.filter_app, (active_session_row_None w room_id Hnone).
  cbn. by rewrite Z.eqb_refl.
Qed.

(** Under a datastore that answers, [start_session] returns the id of the
    row that is the room's active row afterwards. *)
Lemma start_session_reliable (room_id mosque_id : Z) (self : S) (w : World) :
  reliable w = true ->
  exists row w1,
    SupabaseService.start_session room_id mosque_id self w
    = (Ok (Some (sr_id row)), self, w1)
    /\ active_session_row w1 room_id = Some row
    /\ reliable w1 = true
    /\ supabase_service w1 = supabase_service w
    /\ match active_session_row w room_id with
       | Some row0 => row = row0 /\ w1 = after_db_request (SelectActiveSession room_id) w
       | None => room_sessions (db w1) = room_sessions (db w) ++ [row]
       end.
Proof.
  intros Hrel.
  destruct (active_session_row w room_id) as [row0|] eqn:Hrow.
  - destruct (reliable_step (SelectActiveSession room_id) w Hrel) as [Hdb Hrel1].
    exists row0, (after_db_request (SelectActiveSession room_id) w).
    rewrite (start_session_existing _ _ _ _ row0) by assumption.
    repeat split; assumption.
  - destruct (start_session_fresh room_id mosque_id self w Hrel Hrow)
      as (row & w1 & Hrun & Hrows & Hact & Hrel1 & Hsvc).
    exists row, w1. repeat split; assumption.
Qed.

End SessionFacts.

Section CoordinatorSessionFacts.

(** [RoomSessionManager.start_session] once the service call has returned
    a session id: a non-empty id is adopted and cached under the room name,
    an empty one is ignored. *)
Lemma manager_start_session_run (self : RoomSessionManager) (rd : RoomData)
    (w w1 : World) (row : SessionRow) :
  room_data self = Some rd ->
  SupabaseService.start_session (rd_id rd) (rd_mosque_id rd) self w
  = (Ok (Some (sr_id row)), self, w1) ->
  exists self1 w1',
    RoomSessionManager.start_session self w = (Ok tt, self1, w1')
    /\ room_data self1 = Some rd
    /\ room self1 = room self
    /\ db w1' = db w1
    /\ script w1' = script w1
    /\ ((sr_id row = [] /\ self1 = self /\ w1' = w1)
        \/ (sr_id row <> []
            /\ active_session self1
               = Some {| si_id := sr_id row; si_room_id := rd_id rd;
                         si_mosque_id := rd_mosque_id rd |}
            /\ active_sessions (supabase_service w1') !! name (room self)
               = Some {| si_id := sr_id row; si_room_id := rd_id rd;
                         si_mosque_id := rd_mosque_id rd |})).
Proof.
  intros Hrd Hrun.
  unfold RoomSessionManager.start_session, try_except, bind, get_self.
  rewrite Hrd, Hrun.
  destruct (sr_id row) as [|c sid] eqn:Hid; cbn.
  - exists self, w1. repeat split; try assumption. left. by repeat split.
  - eexists _, _. split; [reflexivity|]. cbn.
    repeat split; try assumption. right.
    split; [discriminate|]. split; [reflexivity|].
    apply lookup_insert_eq.
Qed.

End CoordinatorSessionFacts.

Section StopFacts.

(** [SupabaseService.stop_session] never raises and touches neither its
    caller nor the session cache. *)
Lemma service_stop_session_total {S : Type} (room_id : Z) (self : S) (w : World) :
  exists b w1,
    SupabaseService.stop_session room_id self w = (Ok b, self, w1)
    /\ supabase_service w1 = supabase_service w.
Proof.
  unfold SupabaseService.stop_session, try_except, bind.
  rewrite get_active_session_run.
  destruct (if db_fails w then None else active_session_row w room_id) as [row|];
    [|by eexists _, _].
  py_step. py_cases; by eexists _, _.
Qed.

(** Under a datastore that answers, every row carrying the id of the room's
    active row is patched to [completed]. *)
Lemma service_stop_session_completes {S : Type} (room_id : Z) (self : S)
    (w : World) (row : SessionRow) :
  reliable w = true ->
  active_session_row w room_id = Some row ->
  exists b w1,
    SupabaseService.stop_session room_id self w = (Ok b, self, w1)
    /\ room_sessions (db w1)
       = map (fun r => if str_eqb (sr_id r) (sr_id row)
                       then apply_patch (Complete (clock (script w)) (clock (script w))) r
                       else r)
             (room_sessions (db w)).
Proof.
  intros Hrel Hrow.
  destruct (reliable_step (SelectActiveSession room_id) w Hrel) as [Hdb Hrel1].
  destruct (reliable_step
              (UpdateSession (sr_id row)
                 (Complete (clock (script w)) (clock (script w)))) _ Hrel1)
    as [Hdb2 _].
  unfold SupabaseService.stop_session, try_except, bind.
  rewrite get_active_session_run, Hdb, Hrow.
  unfold utcnow, update_sessions, bind, db_request, get_world, ret.
  change (head_or false
            (db_faults (script (after_db_request (SelectActiveSession room_id) w))))
    with (db_fails (after_db_request (SelectActiveSession room_id) w)).
  change (clock (script (after_db_request (SelectActiveSession room_id) w)))
    with (clock (script w)).
  rewrite Hdb2. cbn -[str_eqb apply_patch].
  destruct (List.filter _ _); by eexists _, _.
Qed.

Lemma active_session_row_In (w : World) (room_id : Z) (row : SessionRow) :
  active_session_row w room_id = Some row -> row ∈ room_sessions (db w).
Proof.
  unfold active_session_row. intros Hhead.
  apply list_elem_of_In.
  destruct (List.filter _ _) as [|r l] eqn:Hfilter; [discriminate|].
  cbn in Hhead. injection Hhead as ->.
  assert (Hin : In row (row :: l)) by (by left).
  rewrite <- Hfilter in Hin. apply List.filter_In in Hin. tauto.
Qed.

End StopFacts.

(** C8, as the code has it. Without a cached active session, [stop_session]
    returns normally and leaves the world untouched: no datastore call is
    issued. With one, it returns normally and the cache entry under the room
    name is gone in every case; and, when the datastore answers and holds
    that session as the room's active row, the session is marked completed
    with its end time. *)
Theorem stop_session_safe (self : RoomSessionManager) (w : World) :
  (active_session self = None ->
   let '(r, self', w') := RoomSessionManager.stop_session self w in
   r = Ok tt /\ self' = self /\ w' = w /\ events_since w w' = [])
  /\ (forall rd session,
        room_data self = Some rd ->
        active_session self = Some session ->
        let '(r, self', w') := RoomSessionManager.stop_session self w in
        r = Ok tt
        /\ active_sessions (supabase_service w') !! name (room self) = None
        /\ (forall row,
              reliable w = true ->
              active_session_row w (rd_id rd) = Some row ->
              sr_id row = si_id session ->
              (exists r', r' ∈ room_sessions (db w') /\ sr_id r' = si_id session)
              /\ (forall r', r' ∈ room_sessions (db w') ->
                    sr_id r' = si_id session ->
                    sr_status r' = completed
                    /\ sr_ended_at r' = Some (clock (script w))))).
Proof.
  split.
  - intros Hnone.
    unfold RoomSessionManager.stop_session, try_except, bind, get_self.
    rewrite Hnone. destruct (room_data self); cbn.
    all: repeat split; unfold events_since; by rewrite drop_all.
  - intros rd session Hrd Hsession.
    unfold RoomSessionManager.stop_session, try_except, bind, get_self.
    rewrite Hrd, Hsession.
    destruct (service_stop_session_total (rd_id rd) self w)
      as (b & w1 & Hrun & Hsvc).
    rewrite Hrun.
    unfold SupabaseService.remove_session_info, modify_world.
    assert (Hdbkeep : forall w2,
              (if bool_decide (is_Some (active_sessions (supabase_service w1)
                                          !! name (room self)))
               then set_supabase_service
                      {| websocket_logger_url := websocket_logger_url (supabase_service w1);
                         active_sessions :=
                           delete (name (room self))
                             (active_sessions (supabase_service w1)) |} w1
               else w1) = w2 ->
              db w2 = db w1
              /\ active_sessions (supabase_service w2) !! name (room self) = None).
    { intros w2 <-. case_bool_decide as Hcached; cbn.
      - split; [reflexivity|]. apply lookup_delete_eq.
      - split; [reflexivity|]. by apply eq_None_not_Some. }
    destruct (Hdbkeep _ eq_refl) as [Hdb Hgone].
    split; [reflexivity|]. split; [exact Hgone|].
    intros row Hrel Hrow Hid. rewrite Hdb.
    destruct (service_stop_session_completes (rd_id rd) self w row Hrel Hrow)
      as (b' & w1' & Hrun' & Hrows).
    rewrite Hrun in Hrun'. injection Hrun' as _ <-.
    rewrite Hrows, <- Hid. split.
    + exists (apply_patch (Complete (clock (script w)) (clock (script w))) row).
      split; [|reflexivity].
      apply list_elem_of_fmap.
      exists row. split; [|by eapply active_session_row_In].
      unfold str_eqb. by rewrite bool_decide_eq_true_2.
    + intros r' Hin Hr'.
      apply list_elem_of_fmap in Hin as (r0 & -> & _).
      unfold str_eqb in *. case_bool_decide as Hsame; [by split|].
      contradiction.
Qed.

Lemma stop_session_safe_witness :
  (let '(r, self', w') :=
     RoomSessionManager.stop_session (RoomSessionManager.__init__ masjid_room)
       (sample_world [] []) in
   r = Ok tt
   /\ self' = RoomSessionManager.__init__ masjid_room
   /\ w' = sample_world [] []
   /\ events_since (sample_world [] []) w' = [])
  /\ (let '(r, self', w') :=
        RoomSessionManager.stop_session sample_manager (snd started) in
      r = Ok tt
      /\ active_sessions (supabase_service w') !! name (room sample_manager) = None
      /\ (exists r', r' ∈ room_sessions (db w') /\ sr_id r' = si_id sample_session)
      /\ (forall r', r' ∈ room_sessions (db w') ->
            sr_id r' = si_id sample_session ->
            sr_status r' = completed
            /\ sr_ended_at r' = Some (clock (script (snd started))))).
Proof.
  split.
  - apply (proj1 (stop_session_safe (RoomSessionManager.__init__ masjid_room)
                    (sample_world [] []))).
    reflexivity.
  - pose proof (proj2 (stop_session_safe sample_manager (snd started))
                  sample_room_data sample_session) as Hstop.
    destruct (RoomSessionManager.stop_session sample_manager (snd started))
      as [[r self'] w'].
    destruct Hstop as (Hr & Hgone & Hdone);
      [vm_compute; reflexivity | vm_compute; reflexivity |].
    split; [exact Hr|]. split; [exact Hgone|].
    apply (Hdone (new_session_row 1 7 3)); vm_compute; reflexivity.
Defined.

(** With logging on, one sentence goes through every stage: flag query,
    completion request, caption, transcript insert, count update and
    notification. *)
Example handle_transcription_logged :
  let w := scenario [sample_row active (Some true)] []
             [ChatStream [text_chunk "Peace be upon you."] false] in
  let '(r, self', w') :=
    RoomSessionManager.handle_transcription (of_ascii "salam alaykum.")
      sample_track sample_manager w in
  r = Ok tt
  /\ length (chat_requests (events_since w w')) = 1
  /\ published (events_since w w')
     = [caption_of masjid_service sample_track (of_ascii "SG_0")
          (of_ascii "Peace be upon you.")]
  /\ db_requests (events_since w w')
     = [SelectActiveSession 7;
        InsertTranscript
          {| tr_room_id := 7; tr_session_id := of_ascii "session-1";
             tr_transcription_segment := of_ascii "salam alaykum.";
             tr_translation_segment := of_ascii "Peace be upon you.";
             tr_timestamp := 1700000100 |};
        SelectTranscriptCount (of_ascii "session-1");
        UpdateSession (of_ascii "session-1") (SetTranscriptCount 1 1700000100)]
  /\ map msg_data (notifications (events_since w w'))
     = [TranslationData (of_ascii "salam alaykum.") (of_ascii "Peace be upon you.")]
  /\ map sr_transcript_count (room_sessions (db w')) = [1%Z].
Proof. vm_compute. repeat split; reflexivity. Qed.

(** * Further properties of the code *)

(** ** Trimming *)

Section TrimFacts.

Lemma lstrip_fixed_head (c : N) (t : str) :
  lstrip (c :: t) = c :: t -> is_space c = false.
Proof.
  simpl. destruct (is_space c); [|reflexivity].
  intros H. pose proof (lstrip_length t) as Hlen.
  rewrite H in Hlen. simpl in Hlen. lia.
Qed.

Lemma lstrip_idempotent (s : str) : lstrip (lstrip s) = lstrip s.
Proof.
  induction s as [|c s IH]; simpl; [reflexivity|].
  destruct (is_space c) eqn:Hc; [exact IH|]. simpl. by rewrite Hc.
Qed.

Lemma rstrip_idempotent (s : str) : rstrip (rstrip s) = rstrip s.
Proof.
  unfold rstrip. by rewrite rev_involutive, lstrip_idempotent.
Qed.

(** Trimming the right end of a string with no leading whitespace leaves it
    without leading whitespace. *)
Lemma lstrip_rstrip_fixed (u : str) :
  lstrip u = u -> lstrip (rstrip u) = rstrip u.
Proof.
  destruct u as [|c t]; [reflexivity|].
  intros Hfix. pose proof (lstrip_fixed_head c t Hfix) as Hc.
  unfold rstrip. simpl rev.
  destruct (lstrip_app_cases (rev t) [c]) as [[_ ->]|[_ ->]].
  - simpl. rewrite Hc. simpl. by rewrite Hc.
  - rewrite rev_app_distr. simpl. by rewrite Hc.
Qed.

Lemma strip_idempotent (s : str) : strip (strip s) = strip s.
Proof.
  unfold strip.
  rewrite (lstrip_rstrip_fixed (lstrip s)) by apply lstrip_idempotent.
  apply rstrip_idempotent.
Qed.

Lemma ending_not_space (t : N) : Segmenter.is_ending t = true -> is_space t = false.
Proof.
  unfold Segmenter.is_ending. intros H%bool_decide_eq_true.
  unfold Segmenter.arabic_endings in H.
  repeat (apply elem_of_cons in H as [->|H]; [reflexivity|]).
  by apply elem_of_nil in H.
Qed.

(** Trimming keeps a final non-whitespace character in place. *)
Lemma strip_keeps_last (seg : str) (t : N) :
  is_space t = false -> exists body, strip (seg ++ [t]) = body ++ [t].
Proof.
  intros Ht. unfold strip.
  assert (Hr : forall y, rstrip (y ++ [t]) = y ++ [t]).
  { intros y. unfold rstrip. rewrite rev_app_distr. simpl. rewrite Ht.
    simpl. by rewrite rev_involutive. }
  destruct (lstrip_app_cases seg [t]) as [[_ ->]|[_ ->]].
  - exists []. simpl. rewrite Ht. apply (Hr []).
  - exists (lstrip seg). apply Hr.
Qed.

End TrimFacts.

(** ** More on the sentence segmenter *)

Section SegmenterShape.

Import Segmenter.

(** What the loop has emitted are trimmed segments closed by a terminator;
    what it still holds is terminator-free and is the end of the text. *)
Lemma scan_structure (text : str) (sentences : list str) (current : str) :
  forallb (fun c => negb (is_ending c)) current = true ->
  exists emitted,
    fst (scan text sentences current) = sentences ++ emitted
    /\ Forall (fun e => exists seg t, e = strip (seg ++ [t]) /\ is_ending t = true)
         emitted
    /\ forallb (fun c => negb (is_ending c)) (snd (scan text sentences current)) = true
    /\ exists pre, current ++ text = pre ++ snd (scan text sentences current).
Proof.
  revert sentences current.
  induction text as [|c text IH]; intros sentences current Hcur; simpl.
  - exists []. rewrite !app_nil_r. repeat split; [constructor|assumption|].
    by exists [].
  - assert (Hcons : current ++ c :: text = (current ++ [c]) ++ text)
      by (by rewrite <- app_assoc).
    destruct (is_ending c) eqn:Hc.
    + set (sentences' := if 5 <? length (strip (current ++ [c]))
                         then sentences ++ [strip (current ++ [c])]
                         else sentences).
      destruct (IH sentences' [] eq_refl) as (em & Hem & Hall & Hpend & pre & Hpre).
      destruct (5 <? length (strip (current ++ [c]))) eqn:Hlen; subst sentences'.
      * exists (strip (current ++ [c]) :: em). rewrite Hem, <- app_assoc.
        repeat split; [|assumption|].
        { constructor; [by exists current, c|assumption]. }
        exists ((current ++ [c]) ++ pre).
        rewrite Hcons, <- (app_assoc (current ++ [c]) pre), <- Hpre.
        reflexivity.
      * exists em. repeat split; try assumption.
        exists ((current ++ [c]) ++ pre).
        rewrite Hcons, <- (app_assoc (current ++ [c]) pre), <- Hpre.
        reflexivity.
    + assert (Hcur' : forallb (fun c => negb (is_ending c)) (current ++ [c]) = true).
      { rewrite forallb_app, Hcur. simpl. by rewrite Hc. }
      destruct (IH sentences (current ++ [c]) Hcur')
        as (em & Hem & Hall & Hpend & pre & Hpre).
      exists em. repeat split; try assumption.
      exists pre. by rewrite Hcons.
Qed.

End SegmenterShape.

Lemma extract_elements_bounded (text s : str) :
  s ∈ Segmenter.extract_complete_sentences text ->
  5 < length s /\ length s <= length (strip text).
Proof.
  unfold Segmenter.extract_complete_sentences.
  destruct (is_empty text || (length (strip text) <? 3));
    [intros H; by apply elem_of_nil in H|].
  destruct (scan_emitted text [] []) as (em & Hem & Hall).
  destruct (scan_structure text [] [] eq_refl) as (_ & _ & _ & _ & pre & Hpre).
  destruct (Segmenter.scan text [] []) as [sentences current]. simpl in *.
  subst sentences.
  assert (Hclosed : s ∈ em -> 5 < length s /\ length s <= length (strip text)).
  { intros Hin. by apply (proj1 (Forall_forall _ _) Hall). }
  destruct (10 <? length (strip current)) eqn:Hlen; [|exact Hclosed].
  intros [Hin|Hin]%elem_of_app; [by apply Hclosed|].
  apply list_elem_of_singleton in Hin as ->.
  apply Nat.ltb_lt in Hlen. split; [lia|].
  rewrite Hpre. apply strip_length_app_l.
Qed.

(** X1. Every sentence [extract_complete_sentences] returns is longer than 5
    code points and no longer than the trimmed input. *)
Theorem extract_sentences_bounds (text s : str) :
  s ∈ Segmenter.extract_complete_sentences text ->
  5 < length s /\ length s <= length (strip text).
Proof. apply extract_elements_bounded. Qed.

Lemma extract_sentences_bounds_witness :
  5 < length (of_ascii "It is a long day.")
  /\ length (of_ascii "It is a long day.")
     <= length (strip (of_ascii " Yes! It is a long day. and so on and on ")).
Proof.
  apply (extract_sentences_bounds
           (of_ascii " Yes! It is a long day. and so on and on ")).
  vm_compute. apply list_elem_of_here.
Defined.

(** X2. A text whose trimmed length is at most 5 yields no sentence at all,
    whatever punctuation it holds. *)
Theorem extract_short_text (text : str) :
  length (strip text) <= 5 ->
  Segmenter.extract_complete_sentences text = [].
Proof.
  intros Hshort.
  destruct (Segmenter.extract_complete_sentences text) as [|s l] eqn:Hex;
    [reflexivity|].
  assert (Hin : s ∈ Segmenter.extract_complete_sentences text)
    by (rewrite Hex; apply list_elem_of_here).
  apply extract_elements_bounded in Hin. lia.
Qed.

Lemma extract_short_text_witness :
  Segmenter.extract_complete_sentences (of_ascii "  Yes!?  ") = [].
Proof. apply extract_short_text. vm_compute. lia. Defined.

(** X3. Every returned sentence is already trimmed: it carries no leading or
    trailing whitespace. *)
Theorem extract_sentences_trimmed (text s : str) :
  s ∈ Segmenter.extract_complete_sentences text -> strip s = s.
Proof.
  unfold Segmenter.extract_complete_sentences.
  destruct (is_empty text || (length (strip text) <? 3));
    [intros H; by apply elem_of_nil in H|].
  destruct (scan_structure text [] [] eq_refl) as (em & Hem & Hall & _).
  destruct (Segmenter.scan text [] []) as [sentences current]. simpl in *.
  subst sentences.
  assert (Hclosed : s ∈ em -> strip s = s).
  { intros Hin.
    destruct (proj1 (Forall_forall _ _) Hall s Hin) as (seg & t & -> & _).
    apply strip_idempotent. }
  destruct (10 <? length (strip current)); [|exact Hclosed].
  intros [Hin|Hin]%elem_of_app; [by apply Hclosed|].
  apply list_elem_of_singleton in Hin as ->. apply strip_idempotent.
Qed.

Lemma extract_sentences_trimmed_witness :
  strip (of_ascii "and so on and on") = of_ascii "and so on and on".
Proof.
  apply (extract_sentences_trimmed
           (of_ascii " Yes! It is a long day.   and so on and on ")).
  vm_compute. apply list_elem_of_further, list_elem_of_here.
Defined.

Section PendingFacts.

Import Segmenter.

(** What the loop still holds at the end is what follows the last
    terminator of the text. *)
Lemma scan_pending_split (text : str) :
  exists pre,
    text = pre ++ snd (scan text [] [])
    /\ (pre = [] \/ exists p t, pre = p ++ [t] /\ is_ending t = true).
Proof.
  induction text as [|c text IH] using rev_ind.
  - exists []. split; [reflexivity|by left].
  - destruct IH as (pre & Hsplit & Hpre).
    rewrite scan_app. cbn [scan].
    destruct (is_ending c) eqn:Hc; cbn [snd].
    + exists (text ++ [c]). rewrite app_nil_r. split; [reflexivity|].
      right. by exists text, c.
    + exists pre. split; [|exact Hpre].
      rewrite Hsplit at 1. by rewrite <- app_assoc.
Qed.

End PendingFacts.

(** X4. Split the text after its last terminal mark (the first part is empty
    when there is none). The result is then a run of sentences that each end
    in a terminal mark, followed by the trimmed second part exactly when the
    trimmed length of that part exceeds 10. *)
Theorem extract_sentences_shape (text : str) :
  exists closed pre tail,
    text = pre ++ tail
    /\ (pre = [] \/ exists p t, pre = p ++ [t] /\ Segmenter.is_ending t = true)
    /\ forallb (fun c => negb (Segmenter.is_ending c)) tail = true
    /\ Forall ends_in_terminator closed
    /\ Segmenter.extract_complete_sentences text
       = closed ++ (if 10 <? length (strip tail) then [strip tail] else []).
Proof.
  destruct (scan_pending_split text) as (pre & Hsplit & Hpre).
  destruct (scan_structure text [] [] eq_refl) as (em & Hem & Hall & Hpend & _).
  unfold Segmenter.extract_complete_sentences.
  destruct (Segmenter.scan text [] []) as [sentences current]. simpl in *.
  subst sentences.
  assert (Hends : Forall ends_in_terminator em).
  { eapply Forall_impl; [exact Hall|].
    intros e (seg & t & -> & Ht).
    destruct (strip_keeps_last seg t (ending_not_space t Ht)) as [body Hbody].
    by exists body, t. }
  destruct (is_empty text || (length (strip text) <? 3)) eqn:Hguard.
  - exists [], pre, current.
    repeat split; try assumption; [constructor|].
    assert (Hshort : length (strip current) < 3).
    { apply orb_prop in Hguard as [Hnil|Hlen].
      - destruct text; [|discriminate].
        symmetry in Hsplit. apply app_eq_nil in Hsplit as [_ ->]. simpl. lia.
      - apply Nat.ltb_lt in Hlen.
        pose proof (strip_length_app_l pre current) as Hmono.
        rewrite <- Hsplit in Hmono. lia. }
    assert (H10 : (10 <? length (strip current)) = false)
      by (apply Nat.ltb_ge; lia).
    by rewrite H10.
  - exists em, pre, current.
    repeat split; try assumption.
    destruct (10 <? length (strip current)); [reflexivity|by rewrite app_nil_r].
Qed.

(** ** More on the translation service *)

Section RequestFacts.

Import TranslationService.

(** The events of one call extend the trace, and hold exactly one completion
    request. *)
Lemma translate_text_request (text : str) (track : option Track)
    (self : TranslationService) (w : World) :
  exists evs,
    trace (snd (translate_text text track self w)) = trace w ++ evs
    /\ chat_requests evs
       = [if use_context self then context (advance text self)
          else [system_message self; {| role := user; content := text |}]].
Proof.
  unfold advance, system_message. py_step.
  destruct self as [rm tl sl uc ctx mc mx sp]; cbn.
  destruct uc; cbn; [destruct (mx <? mc + 1); cbn|].
  all: py_cases; cbn; rewrite <- ?app_assoc; eexists; (split; [reflexivity|]);
    reflexivity.
Qed.

Lemma chat_requests_app (a b : list Event) :
  chat_requests (a ++ b) = chat_requests a ++ chat_requests b.
Proof. apply omap_app. Qed.

End RequestFacts.

(** X5. In the one-shot mode ([use_context] off) a call leaves the service
    object untouched and asks for a completion of exactly the system message
    followed by the text. *)
Theorem translate_text_fresh_context (text : str) (track : option Track)
    (self : TranslationService) (w : World) :
  use_context self = false ->
  let '(_, self', w') := TranslationService.translate_text text track self w in
  self' = self
  /\ chat_requests (events_since w w')
     = [[system_message self; {| role := user; content := text |}]].
Proof.
  intros Hoff.
  pose proof (translate_text_self text track self w) as Hself.
  destruct (translate_text_request text track self w) as (evs & Htrace & Hreq).
  destruct (TranslationService.translate_text text track self w) as [[r self'] w'].
  simpl in *. unfold advance in Hself. rewrite Hoff in Hself, Hreq.
  split; [exact Hself|].
  by rewrite (events_since_app w w' evs Htrace).
Qed.

Lemma translate_text_fresh_context_witness :
  let self := TranslationService.set_context
                (context masjid_service ++ [{| role := user; content := of_ascii "earlier." |}])
                {| ts_room := masjid_room; target_language := of_ascii "en";
                   source_language := of_ascii "ar"; use_context := false;
                   context := context masjid_service; message_count := 1;
                   max_context_messages := 9;
                   system_prompt := system_prompt masjid_service |} in
  let w := sample_world [] [ChatStream [text_chunk "ok"] false] in
  let '(_, self', w') :=
    TranslationService.translate_text (of_ascii "salam alaykum.") sample_track self w in
  self' = self
  /\ chat_requests (events_since w w')
     = [[system_message self;
         {| role := user; content := of_ascii "salam alaykum." |}]].
Proof.
  intros self w.
  apply (translate_text_fresh_context (of_ascii "salam alaykum.") sample_track self w).
  reflexivity.
Defined.

(** X6. In the rolling mode a call issues one completion request, made
    against the very context the call leaves behind: below the ceiling that
    is the earlier context with the text appended as a user message. *)
Theorem translate_text_rolling_request (text : str) (track : option Track)
    (self : TranslationService) (w : World) :
  use_context self = true ->
  let '(_, self', w') := TranslationService.translate_text text track self w in
  chat_requests (events_since w w') = [context self']
  /\ (message_count self + 1 <= max_context_messages self ->
      context self' = context self ++ [{| role := user; content := text |}]
      /\ message_count self' = message_count self + 1).
Proof.
  intros Hon.
  pose proof (translate_text_self text track self w) as Hself.
  destruct (translate_text_request text track self w) as (evs & Htrace & Hreq).
  destruct (TranslationService.translate_text text track self w) as [[r self'] w'].
  simpl in *. rewrite Hon in Hreq. subst self'.
  split; [by rewrite (events_since_app w w' evs Htrace)|].
  intros Hbelow. unfold advance. rewrite Hon.
  assert (Hcmp : (max_context_messages self <? message_count self + 1) = false)
    by (apply Nat.ltb_ge; lia).
  by rewrite Hcmp.
Qed.

Lemma translate_text_rolling_request_witness :
  let w := sample_world [] [ChatStream [text_chunk "ok"] false] in
  let '(_, self', w') :=
    TranslationService.translate_text (of_ascii "salam alaykum.") sample_track
      masjid_service w in
  chat_requests (events_since w w') = [context self']
  /\ (message_count masjid_service + 1 <= max_context_messages masjid_service ->
      context self'
      = context masjid_service ++ [{| role := user; content := of_ascii "salam alaykum." |}]
      /\ message_count self' = message_count masjid_service + 1).
Proof.
  intros w.
  apply (translate_text_rolling_request (of_ascii "salam alaykum.") sample_track
           masjid_service w).
  reflexivity.
Defined.

Section WindowFacts.

Lemma translate_all_requests (sys : ChatMessage) (texts : list str)
    (track : option Track) (self : TranslationService) (w : World) :
  context_invariant sys self ->
  exists evs,
    trace (snd (translate_all texts track self w)) = trace w ++ evs
    /\ length (chat_requests evs) = length texts
    /\ Forall (fun ctx => exists users,
                 ctx = sys :: users
                 /\ Forall (fun m => role m = user) users
                 /\ length users <= 9)
         (chat_requests evs).
Proof.
  revert self w.
  induction texts as [|text texts IH]; intros self w Hinv; simpl.
  - exists []. rewrite app_nil_r. repeat split. constructor.
  - pose proof (translate_text_self text track self w) as Hself.
    destruct (translate_text_request text track self w) as (evs1 & Htrace1 & Hreq1).
    destruct (TranslationService.translate_text text track self w) as [[r self'] w'].
    simpl in Hself, Htrace1. subst self'.
    destruct (advance_invariant sys text self Hinv) as [Hinv' _].
    destruct (IH _ w' Hinv') as (evs & Htrace & Hlen & Hall).
    exists (evs1 ++ evs). rewrite Htrace, Htrace1, <- app_assoc.
    split; [reflexivity|].
    rewrite chat_requests_app, Hreq1.
    destruct Hinv as (Huse & _). rewrite Huse.
    split; [simpl; by rewrite Hlen|].
    constructor; [|exact Hall].
    destruct Hinv' as (_ & _ & _ & users & Hctx & Husers & _ & Hle).
    by exists users.
Qed.

End WindowFacts.

(** X7. However many sentences a fresh service translates, it issues one
    completion request per sentence, and every request is the system message
    followed by at most 9 user messages: earlier replies of the model are
    never sent back, and a request never exceeds 10 messages. *)
Theorem rolling_requests_bounded (room : Room) (target source : str)
    (texts : list str) (track : option Track) (w : World) :
  let self0 := TranslationService.__init__ room target source in
  let requests :=
    chat_requests (events_since w (snd (translate_all texts track self0 w))) in
  length requests = length texts
  /\ Forall (fun ctx => exists users,
               ctx = system_message self0 :: users
               /\ Forall (fun m => role m = user) users
               /\ length ctx <= 10)
       requests.
Proof.
  intros self0 requests. subst requests.
  destruct (init_invariant room target source) as [Hinit _]. fold self0 in Hinit.
  destruct (translate_all_requests _ texts track self0 w Hinit)
    as (evs & Htrace & Hlen & Hall).
  rewrite (events_since_app _ _ evs Htrace).
  split; [exact Hlen|].
  eapply Forall_impl; [exact Hall|].
  intros ctx (users & -> & Husers & Hle).
  exists users. repeat split; [assumption|simpl; lia].
Qed.

(** ** More on the datastore service *)

Section TableFacts.

Context {S : Type}.

Lemma db_request_reliable (req : DbRequest) (self : S) (w : World) :
  reliable w = true ->
  db_request req self w = (Ok tt, self, after_db_request req w).
Proof.
  intros Hrel. destruct (reliable_step req w Hrel) as [Hdb _].
  unfold db_request. fold (db_fails w). by rewrite Hdb.
Qed.

Lemma reliable_after (req : DbRequest) (d : Datastore) (w : World) :
  reliable w = true -> reliable (set_db d (after_db_request req w)) = true.
Proof. intros Hrel. by destruct (reliable_step req w Hrel). Qed.

Lemma insert_transcript_run (row : TranscriptRow) (self : S) (w : World) :
  reliable w = true ->
  insert_transcript row self w
  = (Ok [row], self,
     set_db {| rooms := rooms (db w); room_sessions := room_sessions (db w);
               transcripts := transcripts (db w) ++ [row];
               next_session_id := next_session_id (db w) |}
       (after_db_request (InsertTranscript row) w)).
Proof.
  intros Hrel. unfold insert_transcript, bind.
  by rewrite db_request_reliable.
Qed.

Lemma select_transcript_count_run (session_id : str) (self : S) (w : World) :
  reliable w = true ->
  select_transcript_count session_id self w
  = (Ok (List.filter (fun r => str_eqb (sr_id r) session_id) (room_sessions (db w))),
     self, after_db_request (SelectTranscriptCount session_id) w).
Proof.
  intros Hrel. unfold select_transcript_count, bind.
  by rewrite db_request_reliable.
Qed.

Lemma update_sessions_run (session_id : str) (p : SessionPatch) (self : S)
    (w : World) :
  reliable w = true ->
  update_sessions session_id p self w
  = (Ok (List.filter (fun r => str_eqb (sr_id r) session_id)
           (map (fun r => if str_eqb (sr_id r) session_id then apply_patch p r else r)
              (room_sessions (db w)))),
     self,
     set_db (set_room_sessions
               (map (fun r => if str_eqb (sr_id r) session_id then apply_patch p r else r)
                  (room_sessions (db w)))
               (db w))
       (after_db_request (UpdateSession session_id p) w)).
Proof.
  intros Hrel. unfold update_sessions, bind.
  by rewrite db_request_reliable.
Qed.

Lemma apply_patch_id (p : SessionPatch) (r : SessionRow) :
  sr_id (apply_patch p r) = sr_id r /\ sr_room_id (apply_patch p r) = sr_room_id r.
Proof. by destruct p. Qed.

(** Patching by id and selecting by id commute. *)
Lemma filter_patched (session_id : str) (p : SessionPatch) (l : list SessionRow) :
  List.filter (fun r => str_eqb (sr_id r) session_id)
    (map (fun r => if str_eqb (sr_id r) session_id then apply_patch p r else r) l)
  = map (apply_patch p) (List.filter (fun r => str_eqb (sr_id r) session_id) l).
Proof.
  induction l as [|r l IH]; simpl; [reflexivity|].
  destruct (str_eqb (sr_id r) session_id) eqn:Hr; simpl.
  - rewrite (proj1 (apply_patch_id p r)), Hr. simpl. by rewrite IH.
  - by rewrite Hr.
Qed.

End TableFacts.

Section TranscriptFacts.

Context {S : Type}.

Lemma update_session_transcript_count_run (session_id : str) (self : S) (w : World) :
  reliable w = true ->
  exists w',
    SupabaseService.update_session_transcript_count session_id self w = (Ok tt, self, w')
    /\ transcripts (db w') = transcripts (db w)
    /\ match session_row w session_id with
       | Some row0 =>
           let p := SetTranscriptCount (sr_transcript_count row0 + 1) (clock (script w)) in
           room_sessions (db w')
           = map (fun r => if str_eqb (sr_id r) session_id then apply_patch p r else r)
               (room_sessions (db w))
           /\ trace w' = trace w ++ [DbCall (SelectTranscriptCount session_id);
                                     DbCall (UpdateSession session_id p)]
       | None =>
           room_sessions (db w') = room_sessions (db w)
           /\ trace w' = trace w ++ [DbCall (SelectTranscriptCount session_id)]
       end.
Proof.
  intros Hrel.
  pose proof (reliable_after (SelectTranscriptCount session_id) (db w) w Hrel) as Hrel1.
  unfold SupabaseService.update_session_transcript_count, try_except, bind.
  rewrite select_transcript_count_run by assumption.
  unfold session_row.
  destruct (List.filter _ (room_sessions (db w))) as [|row0 l]; simpl head.
  - eexists. split; [reflexivity|]. by repeat split.
  - unfold utcnow, bind, get_world, ret.
    rewrite update_sessions_run by exact Hrel1.
    eexists. split; [reflexivity|]. cbn -[str_eqb apply_patch].
    rewrite <- app_assoc. by repeat split.
Qed.

End TranscriptFacts.

(** X8. On a datastore that answers, [save_transcript] returns [True] and
    stores exactly the given pair with the current time; the session's row
    then carries its former transcript count plus one. When no session row
    carries the id, the transcript is stored all the same and no count is
    written. *)
Theorem save_transcript_recorded {S : Type} (room_id : Z)
    (session_id arabic_text translation : str) (self : S) (w : World) :
  reliable w = true ->
  let row := {| tr_room_id := room_id; tr_session_id := session_id;
                tr_transcription_segment := arabic_text;
                tr_translation_segment := translation;
                tr_timestamp := clock (script w) |} in
  let '(r, self', w') :=
    SupabaseService.save_transcript room_id session_id arabic_text translation self w in
  r = Ok true
  /\ transcripts (db w') = transcripts (db w) ++ [row]
  /\ match session_row w session_id with
     | Some row0 =>
         let p := SetTranscriptCount (sr_transcript_count row0 + 1) (clock (script w)) in
         session_row w' session_id = Some (apply_patch p row0)
         /\ db_requests (events_since w w')
            = [InsertTranscript row; SelectTranscriptCount session_id;
               UpdateSession session_id p]
     | None =>
         room_sessions (db w') = room_sessions (db w)
         /\ db_requests (events_since w w')
            = [InsertTranscript row; SelectTranscriptCount session_id]
     end.
Proof.
  intros Hrel row.
  unfold SupabaseService.save_transcript, utcnow, try_except, bind, get_world, ret.
  fold row. rewrite insert_transcript_run by assumption.
  set (w1 := set_db _ (after_db_request (InsertTranscript row) w)).
  assert (Hrel1 : reliable w1 = true) by (by apply reliable_after).
  destruct (update_session_transcript_count_run session_id self w1 Hrel1)
    as (w' & Hrun & Htr & Hrows).
  rewrite Hrun. split; [reflexivity|]. split; [by rewrite Htr|].
  change (session_row w1 session_id) with (session_row w session_id) in Hrows.
  destruct (session_row w session_id) as [row0|] eqn:Hrow0.
  - destruct Hrows as [Hrows Htrace]. split.
    + unfold session_row in *. rewrite Hrows, filter_patched.
      change (room_sessions (db w1)) with (room_sessions (db w)).
      destruct (List.filter _ (room_sessions (db w))); [discriminate|].
      simpl in *. by injection Hrow0 as ->.
    + rewrite (events_since_app w w'
                 [DbCall (InsertTranscript row);
                  DbCall (SelectTranscriptCount session_id);
                  DbCall (UpdateSession session_id
                            (SetTranscriptCount (sr_transcript_count row0 + 1)
                               (clock (script w))))]); [reflexivity|].
      rewrite Htrace. subst w1. cbn. by rewrite <- app_assoc.
  - destruct Hrows as [Hrows Htrace]. split; [exact Hrows|].
    rewrite (events_since_app w w'
               [DbCall (InsertTranscript row);
                DbCall (SelectTranscriptCount session_id)]); [reflexivity|].
    rewrite Htrace. subst w1. cbn. by rewrite <- app_assoc.
Qed.

Lemma save_transcript_recorded_witness :
  let w := scenario [sample_row active (Some true)] [] [] in
  let row := {| tr_room_id := 7; tr_session_id := of_ascii "session-1";
                tr_transcription_segment := of_ascii "salam alaykum.";
                tr_translation_segment := of_ascii "Peace be upon you.";
                tr_timestamp := clock (script w) |} in
  let '(r, self', w') :=
    SupabaseService.save_transcript 7 (of_ascii "session-1")
      (of_ascii "salam alaykum.") (of_ascii "Peace be upon you.") tt w in
  r = Ok true
  /\ transcripts (db w') = transcripts (db w) ++ [row]
  /\ match session_row w (of_ascii "session-1") with
     | Some row0 =>
         let p := SetTranscriptCount (sr_transcript_count row0 + 1) (clock (script w)) in
         session_row w' (of_ascii "session-1") = Some (apply_patch p row0)
         /\ db_requests (events_since w w')
            = [InsertTranscript row; SelectTranscriptCount (of_ascii "session-1");
               UpdateSession (of_ascii "session-1") p]
     | None =>
         room_sessions (db w') = room_sessions (db w)
         /\ db_requests (events_since w w')
            = [InsertTranscript row; SelectTranscriptCount (of_ascii "session-1")]
     end.
Proof.
  intros w.
  apply (save_transcript_recorded 7 (of_ascii "session-1")
           (of_ascii "salam alaykum.") (of_ascii "Peace be upon you.") tt w).
  reflexivity.
Defined.

(** X9. When the datastore raises on the transcript insert, [save_transcript]
    returns [False]: nothing is stored, the session's count is neither read
    nor written, and the insert is the only request made. *)
Theorem save_transcript_insert_fails {S : Type} (room_id : Z)
    (session_id arabic_text translation : str) (self : S) (w : World) :
  db_fails w = true ->
  let '(r, self', w') :=
    SupabaseService.save_transcript room_id session_id arabic_text translation self w in
  r = Ok false
  /\ db w' = db w
  /\ db_requests (events_since w w')
     = [InsertTranscript
          {| tr_room_id := room_id; tr_session_id := session_id;
             tr_transcription_segment := arabic_text;
             tr_translation_segment := translation;
             tr_timestamp := clock (script w) |}].
Proof.
  unfold db_fails. intros Hfail.
  unfold SupabaseService.save_transcript, insert_transcript.
  py_step. rewrite Hfail. cbn.
  repeat split. by trace_since.
Qed.

Lemma save_transcript_insert_fails_witness :
  let w := scenario [sample_row active (Some true)] [true] [] in
  let '(r, self', w') :=
    SupabaseService.save_transcript 7 (of_ascii "session-1")
      (of_ascii "salam alaykum.") (of_ascii "Peace be upon you.") tt w in
  r = Ok false
  /\ db w' = db w
  /\ db_requests (events_since w w')
     = [InsertTranscript
          {| tr_room_id := 7; tr_session_id := of_ascii "session-1";
             tr_transcription_segment := of_ascii "salam alaykum.";
             tr_translation_segment := of_ascii "Peace be upon you.";
             tr_timestamp := clock (script w) |}].
Proof.
  intros w.
  apply (save_transcript_insert_fails 7 (of_ascii "session-1")
           (of_ascii "salam alaykum.") (of_ascii "Peace be upon you.") tt w).
  reflexivity.
Defined.

(** X10. [send_to_websocket_logger] never raises and never touches the
    datastore. Without a configured endpoint (unset or empty) it does
    nothing at all; with one it issues exactly one POST, to the endpoint's
    [/functions/v1/websocket-logger], carrying the room, the mosque and the
    text pair, whatever the endpoint then answers. *)
Theorem send_to_websocket_logger_posts_once {S : Type} (room_id mosque_id : Z)
    (arabic_text translation : str) (self : S) (w : World) :
  let '(r, self', w') :=
    SupabaseService.send_to_websocket_logger room_id mosque_id arabic_text
      translation self w in
  r = Ok tt
  /\ self' = self
  /\ db w' = db w
  /\ match truthy_str (websocket_logger_url (supabase_service w)) with
     | None => w' = w
     | Some url =>
         events_since w w'
         = [HttpPost (url ++ of_ascii "/functions/v1/websocket-logger")
              {| msg_type := of_ascii "translation"; msg_room_id := room_id;
                 msg_mosque_id := mosque_id;
                 msg_data := TranslationData arabic_text translation;
                 msg_timestamp := clock (script w) |}]
     end.
Proof.
  unfold SupabaseService.send_to_websocket_logger.
  autounfold with py.
  destruct (truthy_str (websocket_logger_url (supabase_service w))) as [url|];
    [|by repeat split].
  destruct (head_or (Some 200%Z) (http_replies (script w)));
    repeat split; apply events_since_app; reflexivity.
Qed.

(** X11. The session cache round-trips: what [set_session_info] stores under
    a room name is what [get_session_info] returns for it, until
    [remove_session_info] drops it; entries of other rooms are not
    affected by either. *)
Theorem session_cache_round_trip {S : Type} (room_name other : str)
    (info : SessionInfo) (self : S) (w : World) :
  fst (fst ((run SupabaseService.set_session_info room_name info in
             SupabaseService.get_session_info room_name) self w))
  = Ok (Some info)
  /\ fst (fst ((run SupabaseService.remove_session_info room_name in
                SupabaseService.get_session_info room_name) self w))
     = Ok None
  /\ (other <> room_name ->
      fst (fst ((run SupabaseService.set_session_info room_name info in
                 SupabaseService.get_session_info other) self w))
      = fst (fst (SupabaseService.get_session_info other self w))
      /\ fst (fst ((run SupabaseService.remove_session_info room_name in
                    SupabaseService.get_session_info other) self w))
         = fst (fst (SupabaseService.get_session_info other self w))).
Proof.
  unfold SupabaseService.set_session_info, SupabaseService.get_session_info,
    SupabaseService.remove_session_info.
  autounfold with py. cbn.
  split; [by rewrite lookup_insert_eq|]. split.
  - case_bool_decide as Hcached; cbn.
    + by rewrite lookup_delete_eq.
    + f_equal. by apply eq_None_not_Some.
  - intros Hne. split.
    + by rewrite lookup_insert_ne.
    + case_bool_decide; cbn; [by rewrite lookup_delete_ne|reflexivity].
Qed.

Lemma session_cache_round_trip_witness :
  fst (fst ((run SupabaseService.set_session_info (of_ascii "masjid-1") sample_session in
             SupabaseService.get_session_info (of_ascii "masjid-2")) tt
            (sample_world [] [])))
  = fst (fst (SupabaseService.get_session_info (of_ascii "masjid-2") tt
                (sample_world [] []))).
Proof.
  apply (proj2 (proj2 (session_cache_round_trip (of_ascii "masjid-1")
                         (of_ascii "masjid-2") sample_session tt
                         (sample_world [] [])))).
  discriminate.
Defined.

(** ** More on session start and stop *)

Section StopStartFacts.

Context {S : Type}.

Lemma filter_nonempty {A : Type} (f : A -> bool) (x : A) (l : list A) :
  x ∈ l -> f x = true -> List.filter f l <> [].
Proof.
  intros Hin Hf Hnil.
  assert (Hx : In x (List.filter f l)).
  { apply List.filter_In. split; [by apply list_elem_of_In|exact Hf]. }
  rewrite Hnil in Hx. exact Hx.
Qed.

(** [stop_session] on a datastore that answers, with an active row. *)
Lemma service_stop_session_run (room_id : Z) (self : S) (w : World)
    (row : SessionRow) :
  reliable w = true ->
  active_session_row w room_id = Some row ->
  let p := Complete (clock (script w)) (clock (script w)) in
  SupabaseService.stop_session room_id self w
  = (Ok true, self,
     set_db (set_room_sessions
               (map (fun r => if str_eqb (sr_id r) (sr_id row) then apply_patch p r else r)
                  (room_sessions (db w)))
               (db w))
       (after_db_request (UpdateSession (sr_id row) p)
          (after_db_request (SelectActiveSession room_id) w))).
Proof.
  intros Hrel Hrow p.
  destruct (reliable_step (SelectActiveSession room_id) w Hrel) as [Hdb Hrel1].
  unfold SupabaseService.stop_session, try_except, bind.
  rewrite get_active_session_run, Hdb, Hrow.
  unfold utcnow, bind, get_world, ret.
  change (clock (script (after_db_request (SelectActiveSession room_id) w)))
    with (clock (script w)).
  fold p. rewrite update_sessions_run by exact Hrel1.
  change (room_sessions (db (after_db_request (SelectActiveSession room_id) w)))
    with (room_sessions (db w)).
  rewrite filter_patched.
  destruct (List.filter (fun r => str_eqb (sr_id r) (sr_id row)) (room_sessions (db w)))
    as [|r0 l] eqn:Hfilter; [|reflexivity].
  exfalso.
  apply (filter_nonempty (fun r => str_eqb (sr_id r) (sr_id row)) row
           (room_sessions (db w))); [|..|exact Hfilter].
  - by eapply active_session_row_In.
  - unfold str_eqb. by rewrite bool_decide_eq_true_2.
Qed.

(** Once the rows carrying the id of the only active row are completed, the
    room has no active row left. *)
Lemma completed_rows_inactive (room_id : Z) (row : SessionRow) (p_ended p_updated : N)
    (l : list SessionRow) :
  (forall r, r ∈ l ->
     (sr_room_id r =? room_id)%Z && is_active (sr_status r) = true ->
     sr_id r = sr_id row) ->
  List.filter (fun r => (sr_room_id r =? room_id)%Z && is_active (sr_status r))
    (map (fun r => if str_eqb (sr_id r) (sr_id row)
                   then apply_patch (Complete p_ended p_updated) r else r) l)
  = [].
Proof.
  induction l as [|r l IH]; intros Hall; [reflexivity|].
  cbn [map List.filter].
  rewrite IH by (intros r' Hin; apply Hall; by apply list_elem_of_further).
  unfold str_eqb. case_bool_decide as Hid.
  - cbn. by rewrite andb_false_r.
  - destruct ((sr_room_id r =? room_id)%Z && is_active (sr_status r)) eqn:Hact;
      [|reflexivity].
    exfalso. apply Hid, Hall; [apply list_elem_of_here|exact Hact].
Qed.

Lemma active_rows_single (w : World) (room_id : Z) (row : SessionRow) :
  active_rows w room_id = [row] ->
  active_session_row w room_id = Some row
  /\ forall r, r ∈ room_sessions (db w) ->
       (sr_room_id r =? room_id)%Z && is_active (sr_status r) = true ->
       sr_id r = sr_id row.
Proof.
  unfold active_rows, active_session_row. intros Hrows.
  split; [by rewrite Hrows|].
  intros r Hin Hact.
  assert (Hr : In r [row]).
  { rewrite <- Hrows. apply List.filter_In.
    split; [by apply list_elem_of_In|exact Hact]. }
  destruct Hr as [->|[]]. reflexivity.
Qed.

End StopStartFacts.

(** X12. On a datastore that answers, stopping a room that has exactly one
    active session returns [True] and leaves the room without an active
    session: the logging check then answers [False], and a second
    [stop_session] returns [False] and changes nothing in the datastore. *)
Theorem stop_session_ends_session {S : Type} (room_id : Z) (self : S) (w : World)
    (row : SessionRow) :
  reliable w = true ->
  active_rows w room_id = [row] ->
  let '(r1, _, w1) := SupabaseService.stop_session room_id self w in
  let '(r2, _, w2) := SupabaseService.stop_session room_id self w1 in
  r1 = Ok true
  /\ active_rows w1 room_id = []
  /\ fst (fst (SupabaseService.is_session_logging_enabled room_id self w1)) = Ok false
  /\ r2 = Ok false
  /\ db w2 = db w1.
Proof.
  intros Hrel Hrows.
  destruct (active_rows_single w room_id row Hrows) as [Hrow Hall].
  rewrite (service_stop_session_run room_id self w row Hrel Hrow).
  set (w1 := set_db _ _).
  assert (Hnone : active_rows w1 room_id = []).
  { unfold active_rows. subst w1. cbn -[str_eqb apply_patch].
    by apply completed_rows_inactive. }
  assert (Hnone' : active_session_row w1 room_id = None).
  { unfold active_session_row. fold (active_rows w1 room_id). by rewrite Hnone. }
  unfold SupabaseService.stop_session at 1, try_except, bind.
  rewrite get_active_session_run, is_session_logging_enabled_run, Hnone'.
  destruct (db_fails w1); by repeat split.
Qed.

Lemma stop_session_ends_session_witness :
  let w := scenario [sample_row completed (Some true);
                     sample_row active (Some true)] [] [] in
  let '(r1, _, w1) := SupabaseService.stop_session 7 tt w in
  let '(r2, _, w2) := SupabaseService.stop_session 7 tt w1 in
  r1 = Ok true
  /\ active_rows w1 7 = []
  /\ fst (fst (SupabaseService.is_session_logging_enabled 7 tt w1)) = Ok false
  /\ r2 = Ok false
  /\ db w2 = db w1.
Proof.
  intros w.
  apply (stop_session_ends_session 7 tt w (sample_row active (Some true)));
    reflexivity.
Defined.

Section RestartFacts.

Context {S : Type}.

(** [start_session] on a datastore that answers, for a room without an
    active row: the row it inserts, in full. *)
Lemma start_session_fresh_row (room_id mosque_id : Z) (self : S) (w : World) :
  reliable w = true ->
  active_rows w room_id = [] ->
  let new := new_session_row (next_session_id (db w)) room_id mosque_id in
  exists w1,
    SupabaseService.start_session room_id mosque_id self w
    = (Ok (Some (sr_id new)), self, w1)
    /\ room_sessions (db w1) = room_sessions (db w) ++ [new]
    /\ rooms (db w1) = rooms (db w)
    /\ active_rows w1 room_id = [new]
    /\ reliable w1 = true
    /\ supabase_service w1 = supabase_service w
    /\ trace w1 = trace w ++ [DbCall (SelectActiveSession room_id);
                              DbCall (InsertSession room_id mosque_id)].
Proof.
  intros Hrel Hnone new.
  assert (Hnone' : active_session_row w room_id = None).
  { unfold active_session_row. fold (active_rows w room_id). by rewrite Hnone. }
  destruct (reliable_step (SelectActiveSession room_id) w Hrel) as [Hdb Hrel1].
  unfold SupabaseService.start_session, try_except, bind.
  rewrite get_active_session_run, Hdb, Hnone'.
  unfold insert_session, bind.
  rewrite db_request_reliable by exact Hrel1.
  eexists. split; [reflexivity|]. cbn -[new_session_row].
  split; [reflexivity|]. split; [reflexivity|]. split.
  - unfold active_rows in *. cbn -[new_session_row].
    rewrite List.filter_app, Hnone. cbn. by rewrite Z.eqb_refl.
  - split; [|split; [reflexivity|by rewrite <- app_assoc]].
    exact (reliable_after (InsertSession room_id mosque_id) (db w) _ Hrel1).
Qed.

End RestartFacts.

(** X13. Stopping and starting again does not revive the old session: on a
    datastore that answers, [start_session] after [stop_session] inserts a
    new row, active, with logging on and a transcript count of zero, and
    returns its id; it is then the room's only active session. *)
Theorem restart_creates_new_session {S : Type} (room_id mosque_id : Z) (self : S)
    (w : World) (row : SessionRow) :
  reliable w = true ->
  active_rows w room_id = [row] ->
  let '(_, _, w1) := SupabaseService.stop_session room_id self w in
  let '(r, _, w2) := SupabaseService.start_session room_id mosque_id self w1 in
  let new := new_session_row (next_session_id (db w)) room_id mosque_id in
  r = Ok (Some (sr_id new))
  /\ room_sessions (db w2) = room_sessions (db w1) ++ [new]
  /\ active_rows w2 room_id = [new]
  /\ sr_transcript_count new = 0%Z
  /\ sr_logging_enabled new = Some true.
Proof.
  intros Hrel Hrows.
  destruct (active_rows_single w room_id row Hrows) as [Hrow Hall].
  rewrite (service_stop_session_run room_id self w row Hrel Hrow).
  set (w1 := set_db _ _).
  assert (Hnone : active_rows w1 room_id = []).
  { unfold active_rows. subst w1. cbn -[str_eqb apply_patch].
    by apply completed_rows_inactive. }
  assert (Hrel1 : reliable w1 = true).
  { subst w1. apply reliable_after.
    by destruct (reliable_step (SelectActiveSession room_id) w Hrel). }
  destruct (start_session_fresh_row room_id mosque_id self w1 Hrel1 Hnone)
    as (w2 & Hrun & Hrows2 & _ & Hact2 & _).
  rewrite Hrun. by repeat split.
Qed.

Lemma restart_creates_new_session_witness :
  let w := scenario [sample_row active (Some false)] [] [] in
  let '(_, _, w1) := SupabaseService.stop_session 7 tt w in
  let '(r, _, w2) := SupabaseService.start_session 7 3 tt w1 in
  let new := new_session_row (next_session_id (db w)) 7 3 in
  r = Ok (Some (sr_id new))
  /\ room_sessions (db w2) = room_sessions (db w1) ++ [new]
  /\ active_rows w2 7 = [new]
  /\ sr_transcript_count new = 0%Z
  /\ sr_logging_enabled new = Some true.
Proof.
  intros w.
  apply (restart_creates_new_session 7 3 tt w (sample_row active (Some false)));
    reflexivity.
Defined.

(** ** More on the session coordinator *)

Section InitializeFacts.

Lemma get_room_by_livekit_name_run {S : Type} (n : str) (self : S) (w : World) :
  SupabaseService.get_room_by_livekit_name n self w
  = (Ok (if db_fails w then None else room_by_name w n), self,
     after_db_request (SelectRoomByName n) w).
Proof.
  unfold SupabaseService.get_room_by_livekit_name, room_by_name, db_fails,
    after_db_request.
  py_step. destruct (head_or false (db_faults (script w))); cbn; [reflexivity|].
  destruct (List.filter _ _); reflexivity.
Qed.

Lemma get_room_languages_run {S : Type} (room_id : Z) (self : S) (w : World) :
  SupabaseService.get_room_languages room_id self w
  = (Ok (if db_fails w then (of_ascii "ar", of_ascii "en")
         else match room_by_id w room_id with
              | Some r => (rd_transcription_language r, rd_translation__language r)
              | None => (of_ascii "ar", of_ascii "en")
              end),
     self, after_db_request (SelectRoomLanguages room_id) w).
Proof.
  unfold SupabaseService.get_room_languages, room_by_id, db_fails,
    after_db_request.
  autounfold with py.
  destruct (head_or false (db_faults (script w))); [reflexivity|].
  cbv beta iota.
  destruct (List.filter _ _); reflexivity.
Qed.

End InitializeFacts.

(** X14. When the room name has no row in the datastore, or the room query
    raises, [initialize] returns [False] after that single query: no
    translation service is built and no session is started; the
    coordinator is left without room data, so a later
    [handle_transcription] does nothing at all. *)
Theorem initialize_unknown_room (self : RoomSessionManager) (w : World)
    (text : str) (track : option Track) :
  db_fails w = true \/ room_by_name w (name (room self)) = None ->
  let '(r, self', w') := RoomSessionManager.initialize self w in
  r = Ok false
  /\ room_data self' = None
  /\ translation_service self' = translation_service self
  /\ active_session self' = active_session self
  /\ db w' = db w
  /\ events_since w w' = [DbCall (SelectRoomByName (name (room self)))]
  /\ RoomSessionManager.handle_transcription text track self' w' = (Ok tt, self', w').
Proof.
  intros Hnone.
  assert (Hrd : (if db_fails w then None else room_by_name w (name (room self))) = None).
  { destruct Hnone as [-> | ->]; [reflexivity|]. by destruct (db_fails w). }
  unfold RoomSessionManager.initialize, try_except, bind, get_self.
  rewrite get_room_by_livekit_name_run, Hrd. cbn.
  repeat split.
  - by apply events_since_app.
  - unfold RoomSessionManager.handle_transcription, try_except, bind, get_self.
    cbn. by destruct (translation_service self), (active_session self).
Qed.

Lemma initialize_unknown_room_witness :
  let self := RoomSessionManager.__init__
                {| name := of_ascii "masjid-9";
                   local_participant_identity := of_ascii "agent" |} in
  let w := sample_world [] [] in
  let '(r, self', w') := RoomSessionManager.initialize self w in
  r = Ok false
  /\ room_data self' = None
  /\ translation_service self' = translation_service self
  /\ active_session self' = active_session self
  /\ db w' = db w
  /\ events_since w w' = [DbCall (SelectRoomByName (name (room self)))]
  /\ RoomSessionManager.handle_transcription (of_ascii "salam alaykum.")
       sample_track self' w' = (Ok tt, self', w').
Proof.
  intros self w.
  apply (initialize_unknown_room self w (of_ascii "salam alaykum.") sample_track).
  right. reflexivity.
Defined.

Section ReadyFacts.

Lemma new_session_id_nonempty (n : nat) (room_id mosque_id : Z) :
  exists c rest, sr_id (new_session_row n room_id mosque_id) = c :: rest.
Proof. eexists _, _. reflexivity. Qed.

(** [RoomSessionManager.start_session] when the service hands back a
    non-empty session id. *)
Lemma manager_start_session_adopts (self : RoomSessionManager) (rd : RoomData)
    (w w1 : World) (session_id : str) :
  room_data self = Some rd ->
  session_id <> [] ->
  SupabaseService.start_session (rd_id rd) (rd_mosque_id rd) self w
  = (Ok (Some session_id), self, w1) ->
  let info := {| si_id := session_id; si_room_id := rd_id rd;
                 si_mosque_id := rd_mosque_id rd |} in
  RoomSessionManager.start_session self w
  = (Ok tt, RoomSessionManager.set_active_session (Some info) self,
     set_supabase_service
       {| websocket_logger_url := websocket_logger_url (supabase_service w1);
          active_sessions :=
            <[name (room self) := info]> (active_sessions (supabase_service w1)) |}
       w1).
Proof.
  intros Hrd Hne Hrun info.
  unfold RoomSessionManager.start_session, try_except, bind, get_self.
  rewrite Hrd, Hrun.
  destruct session_id as [|c rest]; [contradiction|]. reflexivity.
Qed.

(** [initialize] on a datastore that answers, for a known room without an
    active session. *)
Lemma initialize_fresh_run (self : RoomSessionManager) (w : World)
    (rd rl : RoomData) :
  reliable w = true ->
  room_by_name w (name (room self)) = Some rd ->
  room_by_id w (rd_id rd) = Some rl ->
  active_rows w (rd_id rd) = [] ->
  let new := new_session_row (next_session_id (db w)) (rd_id rd) (rd_mosque_id rd) in
  let info := {| si_id := sr_id new; si_room_id := rd_id rd;
                 si_mosque_id := rd_mosque_id rd |} in
  exists w',
    RoomSessionManager.initialize self w
    = (Ok true,
       RoomSessionManager.set_active_session (Some info)
         (RoomSessionManager.set_translation_service
            (Some (TranslationService.__init__ (room self)
                     (rd_translation__language rl) (rd_transcription_language rl)))
            (RoomSessionManager.set_room_data (Some rd) self)),
       w')
    /\ active_sessions (supabase_service w') !! name (room self) = Some info
    /\ active_rows w' (rd_id rd) = [new]
    /\ reliable w' = true
    /\ trace w' = trace w ++ [DbCall (SelectRoomByName (name (room self)));
                              DbCall (SelectRoomLanguages (rd_id rd));
                              DbCall (SelectActiveSession (rd_id rd));
                              DbCall (InsertSession (rd_id rd) (rd_mosque_id rd))].
Proof.
  intros Hrel Hname Hid Hnone new info.
  destruct (reliable_step (SelectRoomByName (name (room self))) w Hrel) as [Hdb Hrel1].
  destruct (reliable_step (SelectRoomLanguages (rd_id rd)) _ Hrel1) as [Hdb1 Hrel2].
  set (w2 := after_db_request (SelectRoomLanguages (rd_id rd))
               (after_db_request (SelectRoomByName (name (room self))) w)) in *.
  set (self2 := RoomSessionManager.set_translation_service
                  (Some (TranslationService.__init__ (room self)
                           (rd_translation__language rl)
                           (rd_transcription_language rl)))
                  (RoomSessionManager.set_room_data (Some rd) self)).
  destruct (start_session_fresh_row (rd_id rd) (rd_mosque_id rd) self2 w2 Hrel2 Hnone)
    as (w3 & Hrun & Hrows & _ & Hact & Hrel3 & Hsvc & Htrace).
  destruct (new_session_id_nonempty (next_session_id (db w)) (rd_id rd) (rd_mosque_id rd))
    as (c & rest & Hnew).
  assert (Hne : sr_id new <> []).
  { unfold new. rewrite Hnew. discriminate. }
  pose proof (manager_start_session_adopts self2 rd w2 w3 (sr_id new) eq_refl Hne Hrun)
    as Hstart.
  unfold RoomSessionManager.initialize, try_except, bind, get_self.
  rewrite get_room_by_livekit_name_run, Hdb, Hname.
  unfold modify_self.
  rewrite get_room_languages_run, Hdb1.
  change (room_by_id (after_db_request (SelectRoomByName (name (room self))) w) (rd_id rd))
    with (room_by_id w (rd_id rd)).
  rewrite Hid. fold w2.
  change (room (RoomSessionManager.set_room_data (Some rd) self)) with (room self).
  fold self2. rewrite Hstart.
  eexists. split; [reflexivity|]. cbn -[new_session_row].
  split; [apply lookup_insert_eq|]. split; [exact Hact|]. split; [exact Hrel3|].
  rewrite Htrace. subst w2. cbn. by rewrite <- !app_assoc.
Qed.

End ReadyFacts.

(** X15. On a datastore that answers, for a room that has a row and no
    active session, [initialize] returns [True] after four requests (room,
    languages, active session, session insert). The coordinator then holds
    the room row, a translation service whose target is the room's
    translation language and whose source is its transcription language, and
    the new session, which is also what the cache returns for the room
    name. *)
Theorem initialize_ready (self : RoomSessionManager) (w : World) (rd rl : RoomData) :
  reliable w = true ->
  room_by_name w (name (room self)) = Some rd ->
  room_by_id w (rd_id rd) = Some rl ->
  active_rows w (rd_id rd) = [] ->
  let new := new_session_row (next_session_id (db w)) (rd_id rd) (rd_mosque_id rd) in
  let info := {| si_id := sr_id new; si_room_id := rd_id rd;
                 si_mosque_id := rd_mosque_id rd |} in
  let '(r, self', w') := RoomSessionManager.initialize self w in
  r = Ok true
  /\ room_data self' = Some rd
  /\ option_map target_language (translation_service self')
     = Some (rd_translation__language rl)
  /\ option_map source_language (translation_service self')
     = Some (rd_transcription_language rl)
  /\ option_map context (translation_service self')
     = Some [{| role := system;
                content := TranslationService.make_system_prompt
                             (rd_transcription_language rl)
                             (rd_translation__language rl) |}]
  /\ active_session self' = Some info
  /\ fst (fst (SupabaseService.get_session_info (name (room self)) self' w'))
     = Ok (Some info)
  /\ active_rows w' (rd_id rd) = [new]
  /\ db_requests (events_since w w')
     = [SelectRoomByName (name (room self)); SelectRoomLanguages (rd_id rd);
        SelectActiveSession (rd_id rd); InsertSession (rd_id rd) (rd_mosque_id rd)].
Proof.
  intros Hrel Hname Hid Hnone new info.
  destruct (initialize_fresh_run self w rd rl Hrel Hname Hid Hnone)
    as (w' & Hrun & Hcache & Hact & _ & Htrace).
  rewrite Hrun.
  repeat split; try assumption.
  - unfold SupabaseService.get_session_info, bind, get_world, ret. cbn [fst].
    by rewrite Hcache.
  - by rewrite (events_since_app _ _ _ Htrace).
Qed.

Lemma initialize_ready_witness :
  fst (fst started) = Ok true
  /\ room_data sample_manager = Some sample_room_data
  /\ option_map target_language (translation_service sample_manager)
     = Some (of_ascii "en")
  /\ active_session sample_manager = Some sample_session.
Proof.
  pose proof (initialize_ready (RoomSessionManager.__init__ masjid_room)
                (sample_world [] []) sample_room_data sample_room_data
                eq_refl eq_refl eq_refl eq_refl) as H.
  cbv zeta in H. fold started in H. unfold sample_manager.
  destruct started as [[r self'] w'].
  destruct H as (Hr & Hrd & Htarget & _ & _ & Hsession & _).
  repeat split; assumption.
Defined.

Section TeardownFacts.

(** The coordinator's [stop_session] on a datastore that answers, for a
    room with exactly one active session. *)
Lemma manager_stop_session_run (self : RoomSessionManager) (w : World)
    (rd : RoomData) (session : SessionInfo) (row : SessionRow) :
  room_data self = Some rd ->
  active_session self = Some session ->
  reliable w = true ->
  active_rows w (rd_id rd) = [row] ->
  exists w2,
    RoomSessionManager.stop_session self w = (Ok tt, self, w2)
    /\ active_rows w2 (rd_id rd) = []
    /\ active_sessions (supabase_service w2) !! name (room self) = None.
Proof.
  intros Hrd Hsession Hrel Hrows.
  destruct (active_rows_single w (rd_id rd) row Hrows) as [Hrow Hall].
  unfold RoomSessionManager.stop_session, try_except, bind, get_self.
  rewrite Hrd, Hsession.
  rewrite (service_stop_session_run (rd_id rd) self w row Hrel Hrow).
  set (w1 := set_db _ _).
  assert (Hnone : active_rows w1 (rd_id rd) = []).
  { unfold active_rows. subst w1. cbn -[str_eqb apply_patch].
    by apply completed_rows_inactive. }
  unfold SupabaseService.remove_session_info, modify_world.
  case_bool_decide as Hcached.
  - eexists. split; [reflexivity|]. split; [exact Hnone|]. apply lookup_delete_eq.
  - eexists. split; [reflexivity|]. split; [exact Hnone|].
    by apply eq_None_not_Some.
Qed.

End TeardownFacts.

(** X16. After [initialize] and then [stop_session] (room known, no session
    active before, datastore answering), the coordinator still holds its
    session descriptor, yet every later [handle_transcription] stops at the
    logging check: the sentence is neither translated nor published nor
    stored nor notified. *)
Theorem stopped_coordinator_is_silent (self : RoomSessionManager) (w : World)
    (rd rl : RoomData) (text : str) (track : option Track) :
  reliable w = true ->
  room_by_name w (name (room self)) = Some rd ->
  room_by_id w (rd_id rd) = Some rl ->
  active_rows w (rd_id rd) = [] ->
  let '(_, self1, w1) := RoomSessionManager.initialize self w in
  let '(r2, self2, w2) := RoomSessionManager.stop_session self1 w1 in
  r2 = Ok tt
  /\ self2 = self1
  /\ is_Some (active_session self2)
  /\ stops_at_gate self2 w2 (rd_id rd)
       (RoomSessionManager.handle_transcription text track self2 w2).
Proof.
  intros Hrel Hname Hid Hnone.
  destruct (initialize_fresh_run self w rd rl Hrel Hname Hid Hnone)
    as (w1 & Hrun & _ & Hact & Hrel1 & _).
  rewrite Hrun. clear Hrun.
  set (self1 := RoomSessionManager.set_active_session _ _).
  destruct (manager_stop_session_run self1 w1 rd _ _ eq_refl eq_refl Hrel1 Hact)
    as (w2 & Hstop & Hnone2 & _).
  rewrite Hstop.
  split; [reflexivity|]. split; [reflexivity|]. split; [by eexists|].
  eapply handle_transcription_gate; try reflexivity.
  unfold active_session_row. fold (active_rows w2 (rd_id rd)). rewrite Hnone2.
  by destruct (db_fails w2).
Qed.

Lemma stopped_coordinator_is_silent_witness :
  let self := RoomSessionManager.__init__ masjid_room in
  let w := sample_world [] [ChatStream [text_chunk "Peace."] false] in
  let '(_, self1, w1) := RoomSessionManager.initialize self w in
  let '(r2, self2, w2) := RoomSessionManager.stop_session self1 w1 in
  r2 = Ok tt
  /\ self2 = self1
  /\ is_Some (active_session self2)
  /\ stops_at_gate self2 w2 7
       (RoomSessionManager.handle_transcription (of_ascii "salam alaykum.")
          sample_track self2 w2).
Proof.
  intros self w.
  apply (stopped_coordinator_is_silent self w sample_room_data sample_room_data
           (of_ascii "salam alaykum.") sample_track); reflexivity.
Defined.

(** ** The pipeline behind an open logging gate *)

Section PipelineFacts.

Lemma db_requests_app (a b : list Event) :
  db_requests (a ++ b) = db_requests a ++ db_requests b.
Proof. apply omap_app. Qed.

Lemma notifications_app (a b : list Event) :
  notifications (a ++ b) = notifications a ++ notifications b.
Proof. apply omap_app. Qed.

Lemma db_requests_calls (l : list DbRequest) : db_requests (map DbCall l) = l.
Proof. induction l as [|r l IH]; simpl; [reflexivity|]. by rewrite IH. Qed.

Lemma notifications_calls (l : list DbRequest) : notifications (map DbCall l) = [].
Proof. induction l as [|r l IH]; simpl; [reflexivity|exact IH]. Qed.

(** [translate_text] always returns; it talks to the completion model and
    the room only, and leaves datastore, cache and clock alone. *)
Lemma translate_text_effects (text : str) (track : option Track)
    (self : TranslationService) (w : World) :
  exists translated self' w' evs,
    TranslationService.translate_text text track self w = (Ok translated, self', w')
    /\ trace w' = trace w ++ evs
    /\ db_requests evs = []
    /\ notifications evs = []
    /\ db w' = db w
    /\ supabase_service w' = supabase_service w
    /\ clock (script w') = clock (script w)
    /\ db_faults (script w') = db_faults (script w)
    /\ http_replies (script w') = http_replies (script w).
Proof.
  py_step. py_cases;
    eexists _, _, _, _; (split; [reflexivity|]);
    cbn [trace record_event set_script set_captions]; rewrite <- ?app_assoc;
    (split; [reflexivity|]); by repeat split.
Qed.

(** [save_transcript] always returns; its first request is the transcript
    insert, and it issues datastore requests only. *)
Lemma save_transcript_effects {S : Type} (room_id : Z)
    (session_id arabic_text translation : str) (self : S) (w : World) :
  exists b w' rest,
    SupabaseService.save_transcript room_id session_id arabic_text translation self w
    = (Ok b, self, w')
    /\ trace w' = trace w
                  ++ map DbCall
                       (InsertTranscript
                          {| tr_room_id := room_id; tr_session_id := session_id;
                             tr_transcription_segment := arabic_text;
                             tr_translation_segment := translation;
                             tr_timestamp := clock (script w) |} :: rest)
    /\ supabase_service w' = supabase_service w
    /\ clock (script w') = clock (script w)
    /\ http_replies (script w') = http_replies (script w).
Proof.
  unfold SupabaseService.save_transcript,
    SupabaseService.update_session_transcript_count.
  py_step. py_cases.
  all: eexists _, _, _; (split; [reflexivity|]);
    cbn [trace record_event set_script set_db]; rewrite <- ?app_assoc;
    split; [|by repeat split].
  all: first [ instantiate (1 := []); reflexivity
             | instantiate (1 := [_]); reflexivity
             | instantiate (1 := [_; _]); reflexivity ].
Qed.

Lemma send_to_websocket_logger_run {S : Type} (room_id mosque_id : Z)
    (arabic_text translation : str) (self : S) (w : World) :
  exists w',
    SupabaseService.send_to_websocket_logger room_id mosque_id arabic_text
      translation self w = (Ok tt, self, w')
    /\ db w' = db w
    /\ match truthy_str (websocket_logger_url (supabase_service w)) with
       | None => w' = w
       | Some url =>
           trace w'
           = trace w
             ++ [HttpPost (url ++ of_ascii "/functions/v1/websocket-logger")
                   {| msg_type := of_ascii "translation"; msg_room_id := room_id;
                      msg_mosque_id := mosque_id;
                      msg_data := TranslationData arabic_text translation;
                      msg_timestamp := clock (script w) |}]
       end.
Proof.
  unfold SupabaseService.send_to_websocket_logger.
  autounfold with py.
  destruct (truthy_str (websocket_logger_url (supabase_service w))) as [url|];
    [|by eexists].
  destruct (head_or (Some 200%Z) (http_replies (script w))); by eexists.
Qed.

End PipelineFacts.

(** X17. With the logging flag on, one sentence runs the whole pipeline
    whatever fails on the way: the text [translate_text] returns (the
    translation, or the input itself when the completion failed) is the one
    put in the transcript insert, which is the first datastore request after
    the flag query, and the one sent in the single notification POST. A
    datastore failure while saving does not stop the notification. *)
Theorem handle_transcription_pipeline (text : str) (track : option Track)
    (self : RoomSessionManager) (w : World)
    (ts : TranslationService) (session : SessionInfo) (rd : RoomData)
    (row : SessionRow) :
  translation_service self = Some ts ->
  active_session self = Some session ->
  room_data self = Some rd ->
  db_fails w = false ->
  active_session_row w (rd_id rd) = Some row ->
  sr_logging_enabled row = Some true ->
  let '(rt, ts', _) :=
    TranslationService.translate_text text track ts
      (after_db_request (SelectActiveSession (rd_id rd)) w) in
  let '(r, self', w') := RoomSessionManager.handle_transcription text track self w in
  exists translated rest,
    rt = Ok translated
    /\ r = Ok tt
    /\ translation_service self' = Some ts'
    /\ db_requests (events_since w w')
       = SelectActiveSession (rd_id rd)
         :: InsertTranscript
              {| tr_room_id := rd_id rd; tr_session_id := si_id session;
                 tr_transcription_segment := text;
                 tr_translation_segment := translated;
                 tr_timestamp := clock (script w) |}
         :: rest
    /\ notifications (events_since w w')
       = match truthy_str (websocket_logger_url (supabase_service w)) with
         | Some _ =>
             [{| msg_type := of_ascii "translation"; msg_room_id := rd_id rd;
                 msg_mosque_id := rd_mosque_id rd;
                 msg_data := TranslationData text translated;
                 msg_timestamp := clock (script w) |}]
         | None => []
         end.
Proof.
  intros Hts Hsession Hrd Hdb Hrow Hflag.
  unfold RoomSessionManager.handle_transcription, try_except, bind, get_self.
  rewrite Hts, Hsession, Hrd, is_session_logging_enabled_run, Hdb, Hrow, Hflag.
  unfold RoomSessionManager.on_translation_service.
  cbv beta iota delta [negb id default from_option].
  rewrite Hts.
  set (w1 := after_db_request (SelectActiveSession (rd_id rd)) w).
  destruct (translate_text_effects text track ts w1)
    as (translated & ts' & w2 & evs & Hrun & Htrace2 & Hdb2 & Hnote2 & _ & Hsvc2
        & Hclock2 & _).
  rewrite Hrun.
  set (self2 := RoomSessionManager.set_translation_service (Some ts') self).
  destruct (save_transcript_effects (rd_id rd) (si_id session) text translated self2 w2)
    as (b & w3 & rest & Hsave & Htrace3 & Hsvc3 & Hclock3 & _).
  rewrite Hsave.
  destruct (send_to_websocket_logger_run (rd_id rd) (rd_mosque_id rd) text
              translated self2 w3) as (w4 & Hsend & _ & Hpost).
  rewrite Hsend.
  exists translated, rest.
  split; [reflexivity|]. split; [reflexivity|]. split; [reflexivity|].
  assert (Hclock : clock (script w2) = clock (script w)) by exact Hclock2.
  assert (Hsvc : supabase_service w3 = supabase_service w)
    by (rewrite Hsvc3, Hsvc2; reflexivity).
  rewrite Hsvc in Hpost. rewrite Hclock3, Hclock in Hpost. rewrite Hclock in Htrace3.
  assert (Hbase : trace w3
                  = trace w ++ [DbCall (SelectActiveSession (rd_id rd))] ++ evs
                    ++ map DbCall
                         (InsertTranscript
                            {| tr_room_id := rd_id rd; tr_session_id := si_id session;
                               tr_transcription_segment := text;
                               tr_translation_segment := translated;
                               tr_timestamp := clock (script w) |} :: rest)).
  { rewrite Htrace3, Htrace2. subst w1. cbn [trace after_db_request record_event].
    by rewrite <- !app_assoc. }
  destruct (truthy_str (websocket_logger_url (supabase_service w))) as [url|].
  - rewrite Hbase, <- !app_assoc in Hpost.
    rewrite (events_since_app w w4 _ Hpost).
    rewrite !db_requests_app, !notifications_app, db_requests_calls,
      notifications_calls, Hdb2, Hnote2.
    split; [|reflexivity].
    change (db_requests [HttpPost _ _]) with (@nil DbRequest).
    by rewrite app_nil_r.
  - subst w4. rewrite (events_since_app w w3 _ Hbase).
    rewrite !db_requests_app, !notifications_app, db_requests_calls,
      notifications_calls, Hdb2, Hnote2.
    split; reflexivity.
Qed.

Lemma handle_transcription_pipeline_witness :
  let w := scenario [sample_row active (Some true)] [false; true] [ChatRaises] in
  let '(rt, ts', _) :=
    TranslationService.translate_text (of_ascii "salam alaykum.") sample_track
      masjid_service (after_db_request (SelectActiveSession 7) w) in
  let '(r, self', w') :=
    RoomSessionManager.handle_transcription (of_ascii "salam alaykum.")
      sample_track sample_manager w in
  exists translated rest,
    rt = Ok translated
    /\ r = Ok tt
    /\ translation_service self' = Some ts'
    /\ db_requests (events_since w w')
       = SelectActiveSession 7
         :: InsertTranscript
              {| tr_room_id := 7; tr_session_id := si_id sample_session;
                 tr_transcription_segment := of_ascii "salam alaykum.";
                 tr_translation_segment := translated;
                 tr_timestamp := clock (script w) |}
         :: rest
    /\ notifications (events_since w w')
       = match truthy_str (websocket_logger_url (supabase_service w)) with
         | Some _ =>
             [{| msg_type := of_ascii "translation"; msg_room_id := 7;
                 msg_mosque_id := 3;
                 msg_data := TranslationData (of_ascii "salam alaykum.") translated;
                 msg_timestamp := clock (script w) |}]
         | None => []
         end.
Proof.
  intros w.
  apply (handle_transcription_pipeline (of_ascii "salam alaykum.") sample_track
           sample_manager w masjid_service sample_session sample_room_data
           (sample_row active (Some true))); vm_compute; reflexivity.
Defined.

(** The same run, evaluated: the completion is down and the transcript
    insert is refused, and still the original text is notified as its own
    translation, with no caption published. *)
Example passthrough_is_notified :
  let w := scenario [sample_row active (Some true)] [false; true] [ChatRaises] in
  let '(r, _, w') :=
    RoomSessionManager.handle_transcription (of_ascii "salam alaykum.")
      sample_track sample_manager w in
  r = Ok tt
  /\ published (events_since w w') = []
  /\ transcripts (db w') = []
  /\ map msg_data (notifications (events_since w w'))
     = [TranslationData (of_ascii "salam alaykum.") (of_ascii "salam alaykum.")].
Proof. vm_compute. repeat split; reflexivity. Qed.

(** X18. [update_participant_count] never raises and never touches the
    datastore. Without room data it does nothing. With room data it records
    the count on the coordinator and, when an endpoint is configured, issues
    exactly one [participant_update] POST carrying that count, whatever the
    endpoint answers. *)
Theorem update_participant_count_effects (count : Z) (self : RoomSessionManager)
    (w : World) :
  let '(r, self', w') := RoomSessionManager.update_participant_count count self w in
  r = Ok tt
  /\ db w' = db w
  /\ match room_data self with
     | None => self' = self /\ w' = w
     | Some rd =>
         self' = RoomSessionManager.set_participant_count count self
         /\ match truthy_str (websocket_logger_url (supabase_service w)) with
            | None => w' = w
            | Some url =>
                events_since w w'
                = [HttpPost (url ++ of_ascii "/functions/v1/websocket-logger")
                     {| msg_type := of_ascii "participant_update";
                        msg_room_id := rd_id rd; msg_mosque_id := rd_mosque_id rd;
                        msg_data := ParticipantData count;
                        msg_timestamp := clock (script w) |}]
            end
     end.
Proof.
  unfold RoomSessionManager.update_participant_count,
    SupabaseService.update_participant_count.
  autounfold with py.
  destruct (room_data self) as [rd|]; [|by repeat split].
  destruct (truthy_str (websocket_logger_url (supabase_service w))) as [url|];
    [|by repeat split].
  destruct (head_or (Some 200%Z) (http_replies (script w)));
    repeat split; apply events_since_app; reflexivity.
Qed.

(** ** The transcript loop *)

Section LoopFacts.

Import Entrypoint.

Lemma handle_transcription_returns (text : str) (track : option Track)
    (self : RoomSessionManager) (w : World) :
  exists self' w',
    RoomSessionManager.handle_transcription text track self w = (Ok tt, self', w').
Proof.
  unfold RoomSessionManager.handle_transcription, try_except.
  match goal with |- context [match ?body self w with _ => _ end] =>
    destruct (body self w) as [[[[]|e] self'] w'] end; by eexists _, _.
Qed.

Lemma for_each_sentence_returns (sentences : list str) (track : option Track)
    (self : RoomSessionManager) (w : World) :
  exists self' w', for_each_sentence sentences track self w = (Ok tt, self', w').
Proof.
  revert self w.
  induction sentences as [|s l IH]; intros self w; cbn [for_each_sentence].
  - by eexists _, _.
  - unfold bind. destruct (5 <? length s).
    + destruct (handle_transcription_returns s track self w) as (s1 & w1 & ->).
      apply IH.
    + cbn. apply IH.
Qed.

Lemma for_each_long_sentences (sentences : list str) (track : option Track)
    (self : RoomSessionManager) (w : World) :
  Forall (fun s => 5 < length s) sentences ->
  for_each_sentence sentences track self w = handle_each sentences track self w.
Proof.
  revert self w.
  induction sentences as [|s l IH]; intros self w Hall; [reflexivity|].
  apply Forall_cons in Hall as [Hs Hl].
  cbn [for_each_sentence handle_each]. unfold bind.
  apply Nat.ltb_lt in Hs. rewrite Hs.
  destruct (RoomSessionManager.handle_transcription s track self w)
    as [[[[]|e] self'] w']; [by apply IH|reflexivity].
Qed.

(** One turn of the loop on a final transcript that has an alternative. *)
Lemma process_final_step (alt : SpeechData) (alts : list SpeechData)
    (rest : list SpeechEvent) (breaks : bool) (track : option Track) (last : str)
    (self : RoomSessionManager) (w : World) :
  process_stt_stream
    ({| ev_type := FINAL_TRANSCRIPT; alternatives := alt :: alts |} :: rest)
    breaks track last self w
  = if negb (is_empty (strip (sd_text alt)))
       && negb (str_eqb (strip (sd_text alt)) last)
    then match for_each_sentence
                 (Segmenter.extract_complete_sentences (strip (sd_text alt)))
                 track self w with
         | (Ok _, self', w') =>
             process_stt_stream rest breaks track (strip (sd_text alt)) self' w'
         | (Raise e, self', w') => (Propagated e, strip (sd_text alt), self', w')
         end
    else process_stt_stream rest breaks track last self w.
Proof. reflexivity. Qed.

End LoopFacts.

(** X19. The loop's own length test never drops anything: every sentence
    the segmenter returns for a transcript is handed to
    [handle_transcription], in the segmenter's order. *)
Theorem sentences_all_forwarded (text : str) (track : option Track)
    (self : RoomSessionManager) (w : World) :
  Entrypoint.for_each_sentence (Segmenter.extract_complete_sentences text) track self w
  = handle_each (Segmenter.extract_complete_sentences text) track self w.
Proof.
  apply for_each_long_sentences, Forall_forall.
  intros s Hin. by apply extract_elements_bounded in Hin as [H5 _].
Qed.

(** X20. A final transcript delivered twice in a row is processed once: the
    repeat issues no call and changes nothing, however the stream ends. *)
Theorem repeated_final_processed_once (e : Entrypoint.SpeechEvent)
    (rest : list Entrypoint.SpeechEvent) (breaks : bool) (track : option Track)
    (last : str) (self : RoomSessionManager) (w : World) :
  Entrypoint.ev_type e = Entrypoint.FINAL_TRANSCRIPT ->
  Entrypoint.process_stt_stream (e :: e :: rest) breaks track last self w
  = Entrypoint.process_stt_stream (e :: rest) breaks track last self w.
Proof.
  intros Hfinal. destruct e as [ty alts]. cbn in Hfinal. subst ty.
  destruct alts as [|alt alts]; [reflexivity|].
  rewrite !process_final_step.
  destruct (negb (is_empty (strip (Entrypoint.sd_text alt)))
            && negb (str_eqb (strip (Entrypoint.sd_text alt)) last)) eqn:Hnew;
    [|reflexivity].
  destruct (Entrypoint.for_each_sentence _ track self w) as [[[u|x] s'] w'];
    [|reflexivity].
  rewrite process_final_step.
  unfold str_eqb at 1. rewrite bool_decide_eq_true_2 by reflexivity.
  by rewrite andb_false_r.
Qed.

Lemma repeated_final_processed_once_witness :
  Entrypoint.process_stt_stream
    [final_event "Peace be upon you."; final_event "Peace be upon you."] false
    sample_track [] sample_manager
    (scenario [sample_row active (Some true)] [] [ChatStream [text_chunk "ok"] false])
  = Entrypoint.process_stt_stream [final_event "Peace be upon you."] false
      sample_track [] sample_manager
      (scenario [sample_row active (Some true)] [] [ChatStream [text_chunk "ok"] false]).
Proof. apply repeated_final_processed_once. reflexivity. Defined.

(** X21. Nothing the coordinator does can end the loop: whatever the
    datastore, the completion model, the room and the webhook do while the
    sentences are handled, the loop leaves only by the end of the stream, by
    the stream's own failure, or by the [IndexError] of an event without
    alternatives. When every event carries an alternative, all of them are
    consumed and the exit is the stream's; an [IndexError] exit means some
    event had none. *)
Theorem loop_exit (events : list Entrypoint.SpeechEvent) (breaks : bool)
    (track : option Track) (last : str) (self : RoomSessionManager) (w : World) :
  let exit :=
    fst (fst (fst (Entrypoint.process_stt_stream events breaks track last self w))) in
  (forall x, exit <> Entrypoint.Propagated x)
  /\ (Forall (fun e => Entrypoint.alternatives e <> []) events ->
      exit = if breaks then Entrypoint.StreamFailed else Entrypoint.StreamEnded)
  /\ (exit = Entrypoint.IndexError ->
      exists e, e ∈ events /\ Entrypoint.alternatives e = []).
Proof.
  revert last self w.
  induction events as [|e events IH]; intros last self w.
  { cbn. repeat split; [by destruct breaks|by destruct breaks]. }
  assert (Hrest : forall last' self' w',
            let exit := fst (fst (fst (Entrypoint.process_stt_stream events breaks
                                         track last' self' w'))) in
            (forall x, exit <> Entrypoint.Propagated x)
            /\ (Forall (fun e => Entrypoint.alternatives e <> []) (e :: events) ->
                exit = if breaks then Entrypoint.StreamFailed else Entrypoint.StreamEnded)
            /\ (exit = Entrypoint.IndexError ->
                exists e0, e0 ∈ e :: events /\ Entrypoint.alternatives e0 = [])).
  { intros last' self' w'. destruct (IH last' self' w') as (Hnp & Hall & Hbad).
    split; [exact Hnp|]. split.
    - intros [_ Hev]%Forall_cons. by apply Hall.
    - intros Hx. destruct (Hbad Hx) as (e0 & Hin & He0).
      exists e0. split; [by apply list_elem_of_further|exact He0]. }
  assert (Hcrash : Entrypoint.alternatives e = [] ->
            (forall x, Entrypoint.IndexError <> Entrypoint.Propagated x)
            /\ (Forall (fun e => Entrypoint.alternatives e <> []) (e :: events) ->
                Entrypoint.IndexError
                = if breaks then Entrypoint.StreamFailed else Entrypoint.StreamEnded)
            /\ (Entrypoint.IndexError = Entrypoint.IndexError ->
                exists e0, e0 ∈ e :: events /\ Entrypoint.alternatives e0 = [])).
  { intros Hempty. split; [discriminate|]. split.
    - intros [Hne _]%Forall_cons. contradiction.
    - intros _. exists e. split; [apply list_elem_of_here|exact Hempty]. }
  destruct e as [ty alts]. cbn [Entrypoint.alternatives] in Hcrash.
  destruct ty, alts as [|alt alts];
    try (apply Hrest); try (by apply Hcrash).
  cbv zeta. rewrite process_final_step.
  destruct (negb (is_empty (strip (Entrypoint.sd_text alt)))
            && negb (str_eqb (strip (Entrypoint.sd_text alt)) last));
    [|apply Hrest].
  destruct (for_each_sentence_returns
              (Segmenter.extract_complete_sentences (strip (Entrypoint.sd_text alt)))
              track self w) as (self' & w' & ->).
  apply Hrest.
Qed.

Lemma loop_exit_witness :
  fst (fst (fst (Entrypoint.process_stt_stream
                   [final_event "Peace be upon you.";
                    {| Entrypoint.ev_type := Entrypoint.INTERIM_TRANSCRIPT;
                       Entrypoint.alternatives := [{| Entrypoint.sd_text := of_ascii "and" |}] |};
                    final_event "and mercy."]
                   true sample_track [] sample_manager
                   (scenario [sample_row active (Some true)] [false; true] [ChatRaises]))))
  = Entrypoint.StreamFailed.
Proof.
  apply (proj1 (proj2 (loop_exit _ true sample_track [] sample_manager
                         (scenario [sample_row active (Some true)] [false; true]
                            [ChatRaises])))).
  repeat constructor; discriminate.
Defined.

(** X22. Once an interim or final event without alternatives arrives, the
    loop is gone: whatever the stream delivers afterwards, and however it
    ends, has no effect. *)
Theorem events_after_crash_ignored (pre : list Entrypoint.SpeechEvent)
    (e : Entrypoint.SpeechEvent) (rest rest' : list Entrypoint.SpeechEvent)
    (breaks breaks' : bool)
    (track : option Track) (last : str) (self : RoomSessionManager) (w : World) :
  Entrypoint.alternatives e = [] ->
  Entrypoint.ev_type e = Entrypoint.FINAL_TRANSCRIPT
  \/ Entrypoint.ev_type e = Entrypoint.INTERIM_TRANSCRIPT ->
  Entrypoint.process_stt_stream (pre ++ e :: rest) breaks track last self w
  = Entrypoint.process_stt_stream (pre ++ e :: rest') breaks' track last self w.
Proof.
  intros Hempty Hty. revert last self w.
  induction pre as [|e0 pre IH]; intros last self w.
  - cbn [app Entrypoint.process_stt_stream]. rewrite Hempty.
    by destruct Hty as [-> | ->].
  - cbn [app]. destruct e0 as [ty alts].
    destruct ty, alts as [|alt alts];
      cbn [Entrypoint.process_stt_stream Entrypoint.ev_type Entrypoint.alternatives];
      try apply IH; try reflexivity.
    destruct (negb (is_empty (strip (Entrypoint.sd_text alt)))
              && negb (str_eqb (strip (Entrypoint.sd_text alt)) last));
      [|apply IH].
    destruct (Entrypoint.for_each_sentence _ track self w) as [[[u|x] s'] w'];
      [apply IH|reflexivity].
Qed.

Lemma events_after_crash_ignored_witness :
  Entrypoint.process_stt_stream
    ([final_event "Peace be upon you."]
     ++ {| Entrypoint.ev_type := Entrypoint.INTERIM_TRANSCRIPT;
           Entrypoint.alternatives := [] |}
        :: [final_event "and the mercy of God."])
    true sample_track [] sample_manager (scenario [sample_row active (Some true)] [] [])
  = Entrypoint.process_stt_stream
      ([final_event "Peace be upon you."]
       ++ {| Entrypoint.ev_type := Entrypoint.INTERIM_TRANSCRIPT;
             Entrypoint.alternatives := [] |}
          :: [])
      false sample_track [] sample_manager (scenario [sample_row active (Some true)] [] []).
Proof.
  apply events_after_crash_ignored; [reflexivity|by right].
Defined.

(** X23. Events other than final transcripts change nothing: a stream
    without a final transcript, whose interim events all carry an
    alternative, leaves the coordinator, the world and the remembered
    transcript exactly as they were, whether it then ends or fails. *)
Theorem stream_without_finals (events : list Entrypoint.SpeechEvent)
    (breaks : bool) (track : option Track) (last : str)
    (self : RoomSessionManager) (w : World) :
  Forall (fun e => Entrypoint.ev_type e <> Entrypoint.FINAL_TRANSCRIPT
                   /\ (Entrypoint.ev_type e = Entrypoint.INTERIM_TRANSCRIPT ->
                       Entrypoint.alternatives e <> [])) events ->
  Entrypoint.process_stt_stream events breaks track last self w
  = (if breaks then Entrypoint.StreamFailed else Entrypoint.StreamEnded,
     last, self, w).
Proof.
  induction events as [|e events IH]; intros Hall; [reflexivity|].
  apply Forall_cons in Hall as [[Hnf Hint] Hrest].
  destruct e as [ty alts]. cbn in Hnf, Hint.
  destruct ty, alts as [|alt alts];
    cbn [Entrypoint.process_stt_stream Entrypoint.ev_type Entrypoint.alternatives];
    try (by apply IH); try contradiction.
  by destruct (Hint eq_refl).
Qed.

Lemma stream_without_finals_witness :
  Entrypoint.process_stt_stream
    [{| Entrypoint.ev_type := Entrypoint.START_OF_SPEECH; Entrypoint.alternatives := [] |};
     {| Entrypoint.ev_type := Entrypoint.INTERIM_TRANSCRIPT;
        Entrypoint.alternatives := [{| Entrypoint.sd_text := of_ascii "Peace be" |}] |};
     {| Entrypoint.ev_type := Entrypoint.END_OF_SPEECH; Entrypoint.alternatives := [] |}]
    false sample_track (of_ascii "earlier.") sample_manager (sample_world [] [])
  = (Entrypoint.StreamEnded, of_ascii "earlier.", sample_manager, sample_world [] []).
Proof.
  apply (stream_without_finals _ false).
  repeat constructor; try discriminate.
Defined.

(** * Session creation, revisited *)

Section StartOutcome.

Lemma active_rows_head (w : World) (room_id : Z) (row : SessionRow) :
  active_rows w room_id = [row] -> active_session_row w room_id = Some row.
Proof.
  intros Hrows. unfold active_session_row. fold (active_rows w room_id).
  by rewrite Hrows.
Qed.

(** [start_session] on a datastore that answers: the id it returns is that
    of the room's first active row, which it has inserted when there was
    none. *)
Lemma start_session_outcome {S : Type} (room_id mosque_id : Z) (self : S)
    (w : World) :
  reliable w = true ->
  let row := match active_session_row w room_id with
             | Some row0 => row0
             | None => new_session_row (next_session_id (db w)) room_id mosque_id
             end in
  exists w1,
    SupabaseService.start_session room_id mosque_id self w
    = (Ok (Some (sr_id row)), self, w1)
    /\ active_session_row w1 room_id = Some row
    /\ reliable w1 = true
    /\ supabase_service w1 = supabase_service w
    /\ room_sessions (db w1)
       = match active_session_row w room_id with
         | Some _ => room_sessions (db w)
         | None => room_sessions (db w) ++ [row]
         end
    /\ trace w1
       = trace w
         ++ map DbCall
              match active_session_row w room_id with
              | Some _ => [SelectActiveSession room_id]
              | None => [SelectActiveSession room_id;
                         InsertSession room_id mosque_id]
              end.
Proof.
  intros Hrel row.
  destruct (active_session_row w room_id) as [row0|] eqn:Hrow.
  - destruct (reliable_step (SelectActiveSession room_id) w Hrel) as [Hdb Hrel1].
    exists (after_db_request (SelectActiveSession room_id) w).
    rewrite (start_session_existing room_id mosque_id self w row0 Hdb Hrow).
    by repeat split.
  - pose proof (active_session_row_None w room_id Hrow) as Hnone.
    destruct (start_session_fresh_row room_id mosque_id self w Hrel Hnone)
      as (w1 & Hrun & Hrows & _ & Hact & Hrel1 & Hsvc & Htrace).
    exists w1. repeat split; try assumption. by apply active_rows_head.
Qed.

(** A second [start_session] finds the active row and only queries. *)
Lemma start_session_again {S : Type} (room_id mosque_id : Z) (self : S)
    (w : World) (row : SessionRow) :
  reliable w = true ->
  active_session_row w room_id = Some row ->
  SupabaseService.start_session room_id mosque_id self w
  = (Ok (Some (sr_id row)), self, after_db_request (SelectActiveSession room_id) w).
Proof.
  intros Hrel Hrow.
  destruct (reliable_step (SelectActiveSession room_id) w Hrel) as [Hdb _].
  by apply start_session_existing.
Qed.

(** The coordinator's [start_session], given what the service returned. *)
Lemma manager_start_session_exact (self : RoomSessionManager) (rd : RoomData)
    (w w1 : World) (session_id : str) :
  room_data self = Some rd ->
  SupabaseService.start_session (rd_id rd) (rd_mosque_id rd) self w
  = (Ok (Some session_id), self, w1) ->
  let info := {| si_id := session_id; si_room_id := rd_id rd;
                 si_mosque_id := rd_mosque_id rd |} in
  RoomSessionManager.start_session self w
  = match session_id with
    | [] => (Ok tt, self, w1)
    | _ :: _ =>
        (Ok tt, RoomSessionManager.set_active_session (Some info) self,
         set_supabase_service
           {| websocket_logger_url := websocket_logger_url (supabase_service w1);
              active_sessions :=
                <[name (room self) := info]> (active_sessions (supabase_service w1)) |}
           w1)
    end.
Proof.
  intros Hrd Hrun info.
  unfold RoomSessionManager.start_session, try_except, bind, get_self.
  rewrite Hrd, Hrun. by destruct session_id.
Qed.

End StartOutcome.

(** C5 fails as stated: the room has an active session, the active-session
    query raises once, and [start_session] inserts a second active record;
    the two calls return different ids. *)
Lemma start_session_idempotent_counterexample :
  let w := scenario [sample_row active (Some true)] [true] [] in
  let '(r1, _, w1) := SupabaseService.start_session 7 3 tt w in
  let '(r2, _, w2) := SupabaseService.start_session 7 3 tt w1 in
  active_session_row w 7 = Some (sample_row active (Some true))
  /\ r1 = Ok (Some (of_ascii "session-2"))
  /\ r2 = Ok (Some (of_ascii "session-1"))
  /\ r1 <> r2
  /\ room_sessions (db w1) = room_sessions (db w) ++ [new_session_row 2 7 3]
  /\ length (active_rows w2 7) = 2.
Proof.
  vm_compute. repeat split; try reflexivity. discriminate.
Qed.

(** C5, as the code has it. On a datastore that answers its requests, two
    [start_session] calls in succession for one room return the same id,
    that of the room's first active row in the datastore: when the room
    already has an active session no record is inserted at all, otherwise
    the first call inserts exactly one, and the second call only queries.
    The coordinator adopts that session on the first call (caching it under
    the room name) and is left unchanged by the second. *)
Theorem start_session_idempotent (self : RoomSessionManager) (rd : RoomData)
    (w : World) :
  room_data self = Some rd ->
  reliable w = true ->
  let existing := active_session_row w (rd_id rd) in
  let row := match existing with
             | Some row0 => row0
             | None => new_session_row (next_session_id (db w))
                         (rd_id rd) (rd_mosque_id rd)
             end in
  let info := {| si_id := sr_id row; si_room_id := rd_id rd;
                 si_mosque_id := rd_mosque_id rd |} in
  (let '(r1, _, w1) :=
     SupabaseService.start_session (rd_id rd) (rd_mosque_id rd) self w in
   let '(r2, _, w2) :=
     SupabaseService.start_session (rd_id rd) (rd_mosque_id rd) self w1 in
   r1 = Ok (Some (sr_id row))
   /\ r2 = Ok (Some (sr_id row))
   /\ active_session_row w1 (rd_id rd) = Some row
   /\ active_session_row w2 (rd_id rd) = Some row
   /\ room_sessions (db w1)
      = match existing with
        | Some _ => room_sessions (db w)
        | None => room_sessions (db w) ++ [row]
        end
   /\ db_requests (events_since w w1)
      = match existing with
        | Some _ => [SelectActiveSession (rd_id rd)]
        | None => [SelectActiveSession (rd_id rd);
                   InsertSession (rd_id rd) (rd_mosque_id rd)]
        end
   /\ room_sessions (db w2) = room_sessions (db w1)
   /\ db_requests (events_since w1 w2) = [SelectActiveSession (rd_id rd)]
   /\ length (room_sessions (db w2)) <= Datatypes.S (length (room_sessions (db w))))
  /\ (let '(rr1, self1, w1) := RoomSessionManager.start_session self w in
      let '(rr2, self2, w2) := RoomSessionManager.start_session self1 w1 in
      rr1 = Ok tt
      /\ rr2 = Ok tt
      /\ self1 = match sr_id row with
                 | [] => self
                 | _ :: _ => RoomSessionManager.set_active_session (Some info) self
                 end
      /\ self2 = self1
      /\ (sr_id row <> [] ->
          active_sessions (supabase_service w1) !! name (room self) = Some info
          /\ active_sessions (supabase_service w2) !! name (room self) = Some info)
      /\ active_session_row w2 (rd_id rd) = Some row
      /\ room_sessions (db w2) = room_sessions (db w1)
      /\ db_requests (events_since w1 w2) = [SelectActiveSession (rd_id rd)]).
Proof.
  intros Hrd Hrel existing row info.
  destruct (start_session_outcome (rd_id rd) (rd_mosque_id rd) self w Hrel)
    as (w1 & Hrun & Hact & Hrel1 & Hsvc & Hrows & Htrace).
  fold existing in Hrun, Hact, Hrows, Htrace. fold row in Hrun, Hact, Hrows.
  split.
  - rewrite Hrun.
    rewrite (start_session_again (rd_id rd) (rd_mosque_id rd) self w1 row Hrel1 Hact).
    split; [reflexivity|]. split; [reflexivity|]. split; [exact Hact|].
    split; [exact Hact|]. split; [exact Hrows|]. split.
    { rewrite (events_since_app _ _ _ Htrace). apply db_requests_calls. }
    split; [reflexivity|]. split.
    { by rewrite events_after_db_request. }
    change (room_sessions (db (after_db_request (SelectActiveSession (rd_id rd)) w1)))
      with (room_sessions (db w1)).
    rewrite Hrows. destruct existing; [lia|]. rewrite length_app. cbn. lia.
  - rewrite (manager_start_session_exact self rd w w1 (sr_id row) Hrd Hrun).
    fold info.
    destruct (sr_id row) as [|c sid] eqn:Hid.
    + pose proof (start_session_again (rd_id rd) (rd_mosque_id rd) self w1 row
                    Hrel1 Hact) as Hrun2.
      rewrite (manager_start_session_exact self rd w1 _ (sr_id row) Hrd Hrun2).
      rewrite Hid.
      split; [reflexivity|]. split; [reflexivity|]. split; [reflexivity|].
      split; [reflexivity|]. split; [intros Hne; by destruct Hne|].
      split; [exact Hact|]. split; [reflexivity|].
      by rewrite events_after_db_request.
    + set (self1 := RoomSessionManager.set_active_session (Some info) self).
      set (w1' := set_supabase_service _ w1).
      assert (Hrel1' : reliable w1' = true) by exact Hrel1.
      assert (Hact' : active_session_row w1' (rd_id rd) = Some row) by exact Hact.
      pose proof (start_session_again (rd_id rd) (rd_mosque_id rd) self1 w1' row
                    Hrel1' Hact') as Hrun2.
      rewrite (manager_start_session_exact self1 rd w1' _ (sr_id row) Hrd Hrun2).
      rewrite Hid.
      split; [reflexivity|]. split; [reflexivity|]. split; [reflexivity|].
      split; [reflexivity|]. split.
      { intros _. subst w1'. cbn -[info].
        split; [apply lookup_insert_eq|]. apply lookup_insert_eq. }
      split; [exact Hact|]. split; [reflexivity|].
      rewrite (events_since_app w1' _ [DbCall (SelectActiveSession (rd_id rd))]);
        reflexivity.
Qed.

Lemma start_session_idempotent_witness :
  let self := RoomSessionManager.set_room_data (Some sample_room_data)
                (RoomSessionManager.__init__ masjid_room) in
  let w := sample_world [sample_row completed (Some true);
                         sample_row active (Some false)] [] in
  let row := sample_row active (Some false) in
  (let '(r1, _, w1) := SupabaseService.start_session 7 3 self w in
   let '(r2, _, w2) := SupabaseService.start_session 7 3 self w1 in
   r1 = Ok (Some (sr_id row))
   /\ r2 = Ok (Some (sr_id row))
   /\ active_session_row w1 7 = Some row
   /\ active_session_row w2 7 = Some row
   /\ room_sessions (db w1) = room_sessions (db w)
   /\ db_requests (events_since w w1) = [SelectActiveSession 7]
   /\ room_sessions (db w2) = room_sessions (db w1)
   /\ db_requests (events_since w1 w2) = [SelectActiveSession 7]
   /\ length (room_sessions (db w2)) <= Datatypes.S (length (room_sessions (db w))))
  /\ (let '(rr1, self1, w1) := RoomSessionManager.start_session self w in
      let '(rr2, self2, w2) := RoomSessionManager.start_session self1 w1 in
      rr1 = Ok tt
      /\ rr2 = Ok tt
      /\ self1 = RoomSessionManager.set_active_session (Some sample_session) self
      /\ self2 = self1
      /\ (sr_id row <> [] ->
          active_sessions (supabase_service w1) !! name (room self)
          = Some sample_session
          /\ active_sessions (supabase_service w2) !! name (room self)
             = Some sample_session)
      /\ active_session_row w2 7 = Some row
      /\ room_sessions (db w2) = room_sessions (db w1)
      /\ db_requests (events_since w1 w2) = [SelectActiveSession 7]).
Proof.
  intros self w row.
  exact (start_session_idempotent self sample_room_data w eq_refl eq_refl).
Defined.

(** The other case, evaluated: a room without an active session gets exactly
    one record from two calls. *)
Example start_session_twice_fresh :
  let self := RoomSessionManager.set_room_data (Some sample_room_data)
                (RoomSessionManager.__init__ masjid_room) in
  let w := sample_world [sample_row completed (Some true)] [] in
  let '(_, self1, w1) := RoomSessionManager.start_session self w in
  let '(_, self2, w2) := RoomSessionManager.start_session self1 w1 in
  active_session self1 = Some sample_session
  /\ self2 = self1
  /\ room_sessions (db w2) = [sample_row completed (Some true); new_session_row 1 7 3].
Proof. vm_compute. repeat split; reflexivity. Qed.

(** C8 fails as stated: the coordinator holds a session that is active in
    the datastore, the active-session query raises, and [stop_session]
    evicts the cache entry while the session stays active. *)
Lemma stop_session_safe_counterexample :
  let w := scenario [sample_row active (Some true)] [true] [] in
  let '(r, self', w') := RoomSessionManager.stop_session sample_manager w in
  active_session sample_manager = Some sample_session
  /\ active_sessions (supabase_service w) !! name (room sample_manager)
     = Some sample_session
  /\ active_session_row w 7 = Some (sample_row active (Some true))
  /\ r = Ok tt
  /\ active_sessions (supabase_service w') !! name (room sample_manager) = None
  /\ room_sessions (db w') = [sample_row active (Some true)]
  /\ ~ (exists r', r' ∈ room_sessions (db w')
                   /\ sr_id r' = si_id sample_session
                   /\ sr_status r' = completed).
Proof.
  vm_compute. repeat split; try reflexivity.
  intros (r' & Hin & _ & Hstatus).
  apply list_elem_of_singleton in Hin. subst r'. discriminate Hstatus.
Qed.
